(** * gomongolia-guide-admin-web: the fetch helper and the derived view-models

    A shallow embedding of
      - [lib/httpHelper.ts]            (the envelope-unwrapping GET helper),
      - [src/app/page.tsx]             (the dashboard page: filter, sort, statistics),
      - the trips page                 (filter, de-duplication of guides, statistics),
    together with the properties the design note states about them.

    Conventions of the model
      - a JS [string] is well-formed text, held as the [string] of its
        UTF-8 bytes (one text occurs in another exactly when its bytes do);
        the case mapping [toLowerCase] is a parameter, of which only its
        action on ASCII text is fixed;
      - a field read through [?.], [||] or [??] is an [option]: [None] is a
        field that is [null] or [undefined];
      - a JS [boolean] flag that is only ever tested for truthiness is a [bool];
      - integers ([id], [reward_amount], lengths, epoch milliseconds) are [Z] or
        [nat]; quotients are exact rationals ([Q]), so the rounding of IEEE
        doubles is not part of the model;
      - [Record<string, number>] objects are [gmap string nat]; the keys
        named like a member inherited from [Object.prototype] are outside
        the model, and what is proved of a histogram says so;
      - the clock ([new Date()]) and the browser's time zone are parameters. *)

From Stdlib Require Import ZArith QArith List Bool Ascii String DecimalString Lia.
From Stdlib Require Import Sorting.Sorted Sorting.Permutation.
From stdpp Require Import base option gmap strings.
Import ListNotations.

Set Warnings "-register-all".

Local Open Scope string_scope.
Local Open Scope list_scope.
Local Open Scope Z_scope.

(** ** JavaScript strings and values *)

Module Js.

(** Lower case on ASCII text: the letters A-Z go to a-z, every other
    character stays. *)
Definition lower_char (c : ascii) : ascii :=
  let n := nat_of_ascii c in
  if ((65 <=? n)%nat && (n <=? 90)%nat)%bool then ascii_of_nat (n + 32) else c.

Fixpoint lower_ascii (s : string) : string :=
  match s with
  | EmptyString => EmptyString
  | String c s' => String (lower_char c) (lower_ascii s')
  end.

(** The text has ASCII characters only. *)
Fixpoint is_ascii (s : string) : bool :=
  match s with
  | EmptyString => true
  | String c s' => (nat_of_ascii c <? 128)%nat && is_ascii s'
  end.

(** [String.prototype.toLowerCase].  The case mapping of Unicode is a table
    of the engine (it lowers Cyrillic and accented letters and depends on
    the context for the Greek sigma), so it is a parameter; what is used of
    it is that on ASCII text it lowers the letters A-Z and nothing else. *)
Record Unicode : Type := mkUnicode {
  toLowerCase : string -> string;
  toLowerCase_ascii : forall s, is_ascii s = true -> toLowerCase s = lower_ascii s
}.

(** The names every object inherits from [Object.prototype]. *)
Definition Object_prototype_names : list string :=
  ["constructor"; "hasOwnProperty"; "isPrototypeOf"; "propertyIsEnumerable";
   "toLocaleString"; "toString"; "valueOf"; "__proto__";
   "__defineGetter__"; "__defineSetter__"; "__lookupGetter__"; "__lookupSetter__"].

Definition inherited (k : string) : bool := existsb (String.eqb k) Object_prototype_names.

(** [s.includes(t)]: [t] occurs in [s] as a contiguous substring. *)
Fixpoint includes (s t : string) : bool :=
  if String.prefix t s then true
  else match s with
       | EmptyString => false
       | String _ s' => includes s' t
       end.

(** The values a parsed JSON body is made of, and [undefined], which a
    property read produces.  Numbers are the integer-valued ones. *)
Inductive JsVal : Type :=
| JUndefined
| JNull
| JBool (b : bool)
| JNum (z : Z)
| JStr (s : string)
| JArr (items : list JsVal)
| JObj (fields : list (string * JsVal)).

(** [ToBoolean]. *)
Definition truthy (v : JsVal) : bool :=
  match v with
  | JUndefined | JNull => false
  | JBool b => b
  | JNum z => negb (z =? 0)
  | JStr s => negb (String.eqb s "")
  | JArr _ | JObj _ => true
  end.

(** [a || b]. *)
Definition js_or (a b : JsVal) : JsVal := if truthy a then a else b.

Definition string_of_Z (z : Z) : string := NilZero.string_of_int (Z.to_int z).

(** [ToString]; an array is the comma-joined text of its elements, with
    [null] and [undefined] elements rendered empty.  This is the text of
    integers below 10^21 in magnitude and of objects without a member named
    [toString] or [valueOf] of their own. *)
Fixpoint ToString (v : JsVal) : string :=
  match v with
  | JUndefined => "undefined"
  | JNull => "null"
  | JBool true => "true"
  | JBool false => "false"
  | JNum z => string_of_Z z
  | JStr s => s
  | JArr items =>
      let elt x := match x with JUndefined | JNull => "" | _ => ToString x end in
      (fix join (l : list JsVal) : string :=
         match l with
         | [] => ""
         | [x] => elt x
         | x :: r => (elt x ++ "," ++ join r)%string
         end) items
  | JObj _ => "[object Object]"
  end.

Fixpoint assoc (k : string) (fields : list (string * JsVal)) : option JsVal :=
  match fields with
  | [] => None
  | (k', v) :: r => if String.eqb k k' then Some v else assoc k r
  end.

(** [v.k] for a property name [k] that no primitive wrapper and no array
    defines (here: [message], [data]).  [None] is the [TypeError] raised
    when [v] is [null] or [undefined]. *)
Definition get_prop (v : JsVal) (k : string) : option JsVal :=
  match v with
  | JUndefined | JNull => None
  | JObj fields => Some (default JUndefined (assoc k fields))
  | _ => Some JUndefined
  end.

(** What a [throw] carries. *)
Inductive JsError : Type :=
| Error (message : string)
| TypeError
| SyntaxError.

(** [new Error(msg)]: the message is [ToString(msg)], for a [msg] within
    the reach of [ToString] above. *)
Definition new_Error (msg : JsVal) : JsError := Error (ToString msg).

(** The settled state of an [async] function's promise. *)
Inductive Outcome (A : Type) : Type :=
| Returned (a : A)
| Thrown (e : JsError).
Arguments Returned {A} a.
Arguments Thrown {A} e.

End Js.

(** ** lib/httpHelper.ts *)

Module HttpHelper.
Import Js.

(** What [fetch] resolves to: the status code and what [res.json()] makes
    of the body ([None]: the body is not JSON and [res.json()] rejects). *)
Record Response : Type := mkResponse {
  status : Z;
  json : option JsVal
}.

(** [res.ok]: the status is in the range 200-299. *)
Definition ok (res : Response) : bool := (200 <=? status res) && (status res <=? 299).

(** [httpGet], from the point where [fetch] has resolved to [res]. *)
Definition httpGet (res : Response) : Outcome JsVal :=
  if negb (ok res) then
    let msg := JStr ("HTTP error! status: " ++ string_of_Z (status res))%string in
    let msg :=
      match json res with
      | Some errData =>
          match get_prop errData "message" with
          | Some m => js_or m msg
          | None => msg
          end
      | None => msg
      end in
    Thrown (new_Error msg)
  else
    match json res with
    | Some j =>
        match get_prop j "data" with
        | Some d => Returned d
        | None => Thrown TypeError
        end
    | None => Thrown SyntaxError
    end.

End HttpHelper.

(** ** interfaces/users.ts and interfaces/trips.ts

    Only the fields the derivations read are kept. *)

Module User.
Record t : Type := mk {
  id : Z;
  name : option string;
  surname : option string;
  phone : option string;
  plate_number : option string;
  car_model : option string;
  type : option string;
  is_active : bool;
  is_onboarded : bool;
  (** [None]: the field is missing or empty.  [Some d]: the field is a
      non-empty string and [d] is the time value [new Date] gives it, in
      milliseconds since the epoch ([None]: an invalid date). *)
  last_login_at : option (option Z);
  reward_amount : option Z
}.
End User.

Module Company.
Record t : Type := mk {
  id : Z;
  name : option string
}.
End Company.

Module Trip.
Record t : Type := mk {
  id : Z;
  code : option string;
  guide : option User.t;
  driver : option User.t;
  company : option Company.t;
  is_finished : bool;
  is_cancelled : bool
}.
End Trip.

(** ** Pieces of JavaScript both pages use *)

Module Lang.
Import Js.

(** [a || b] on the results of optional chains that end in [includes]:
    [None] is [undefined]. *)
Definition or_else (a b : option bool) : option bool :=
  match a with
  | Some true => a
  | _ => b
  end.

(** [m && t], then the [ToBoolean] that [Array.prototype.filter] applies. *)
Definition and_then (m : option bool) (t : bool) : bool :=
  match m with
  | Some true => t
  | _ => false
  end.

(** [f?.toLowerCase().includes(term.toLowerCase())]. *)
Definition ci_includes (U : Unicode) (f : option string) (term : string) : option bool :=
  (fun s => includes (toLowerCase U s) (toLowerCase U term)) <$> f.

(** [f?.includes(term)]. *)
Definition cs_includes (f : option string) (term : string) : option bool :=
  (fun s => includes s term) <$> f.

(** [Array.prototype.sort(cmp)].  The standard requires the sort to be stable
    and, for a consistent comparator, to leave [cmp a b <= 0] between
    neighbours, which fixes the result; a stable insertion sort computes it. *)
Section Sort.
Context {A : Type} (cmp : A -> A -> Z).

Fixpoint sort_insert (a : A) (l : list A) : list A :=
  match l with
  | [] => [a]
  | b :: r => if cmp a b <=? 0 then a :: b :: r else b :: sort_insert a r
  end.

Fixpoint sort (l : list A) : list A :=
  match l with
  | [] => []
  | a :: r => sort_insert a (sort r)
  end.
End Sort.

(** [Array.prototype.findIndex]: the first index whose element satisfies
    [p], or [-1]. *)
Fixpoint findIndex_from {A : Type} (p : A -> bool) (i : Z) (l : list A) : Z :=
  match l with
  | [] => -1
  | x :: r => if p x then i else findIndex_from p (i + 1) r
  end.

Definition findIndex {A : Type} (p : A -> bool) (l : list A) : Z :=
  findIndex_from p 0 l.

(** [self.filter((x, index, self) => f x index self)]. *)
Fixpoint filter_from {A : Type} (f : A -> Z -> bool) (i : Z) (l : list A) : list A :=
  match l with
  | [] => []
  | x :: r => if f x i then x :: filter_from f (i + 1) r else filter_from f (i + 1) r
  end.

Definition filter_indexed {A : Type} (f : A -> Z -> list A -> bool) (self : list A) : list A :=
  filter_from (fun x i => f x i self) 0 self.

(** The browser's time zone, as ECMAScript's [LocalTZA(t, isUTC)]: the
    offset of local time from UTC, in milliseconds, at the UTC instant [t]
    ([offset_at_utc]) and at the local time value [t] ([offset_at_local]). *)
Record TimeZone : Type := mkTimeZone {
  offset_at_utc : Z -> Z;
  offset_at_local : Z -> Z
}.

Definition msPerDay : Z := 1000 * 60 * 60 * 24.

Definition LocalTime (tz : TimeZone) (t : Z) : Z := t + offset_at_utc tz t.
Definition UTC (tz : TimeZone) (t : Z) : Z := t - offset_at_local tz t.

(** [d.setDate(d.getDate() - n)] on a date whose time value is [tv]: the
    local calendar date moves back [n] days and the local time of day
    stays, so the local time value drops by [n] days exactly; the result is
    converted back with [UTC]. *)
Definition setDate_back (tz : TimeZone) (tv : Z) (n : Z) : Z :=
  UTC tz (LocalTime tz tv - n * msPerDay).

(** [count / total * 100], numbers that are lengths of arrays. *)
Definition percent (count total : nat) : Q :=
  (inject_Z (Z.of_nat count) / inject_Z (Z.of_nat total)) * 100.

(** [(acc[k] || 0) + 1] stored back under [k], for a key [k] that is not one
    of [Object_prototype_names]: for those the object literal [{}] the
    accumulator starts from finds the inherited member instead of a count. *)
Definition bump (k : string) (acc : gmap string nat) : gmap string nat :=
  <[k := (default 0 (acc !! k) + 1)%nat]> acc.

End Lang.

(** ** src/app/page.tsx: the dashboard page *)

Module Dashboard.
Import Js Lang.

Definition matchesSearch (U : Unicode) (user : User.t) (searchTerm : string) : option bool :=
  or_else (or_else (or_else
    (ci_includes U (User.name user) searchTerm)
    (ci_includes U (User.surname user) searchTerm))
    (cs_includes (User.phone user) searchTerm))
    (ci_includes U (User.plate_number user) searchTerm).

Definition matchesType (user : User.t) (filterType : string) : bool :=
  String.eqb filterType "all"
  || match User.type user with
     | Some ty => String.eqb ty filterType
     | None => false
     end.

(** The comparator handed to [sort]. *)
Definition compare (a b : User.t) : Z :=
  let rewardA := default 0 (User.reward_amount a) in
  let rewardB := default 0 (User.reward_amount b) in
  if negb (rewardA =? rewardB) then rewardB - rewardA
  else
    let onboardedA := if User.is_onboarded a then 1 else 0 in
    let onboardedB := if User.is_onboarded b then 1 else 0 in
    onboardedB - onboardedA.

Definition filteredUsers (U : Unicode) (users : list User.t) (searchTerm filterType : string)
  : list User.t :=
  sort compare
    (List.filter
       (fun user => and_then (matchesSearch U user searchTerm) (matchesType user filterType))
       users).

(** The callback of [recentLogins]; [now] is what [new Date()] reads and [tz]
    the time zone of the browser. *)
Definition isRecentLogin (tz : TimeZone) (now : Z) (u : User.t) : bool :=
  match User.last_login_at u with
  | None => false
  | Some loginDate =>
      let weekAgo := setDate_back tz now 7 in
      match loginDate with
      | Some t => weekAgo <? t
      | None => false
      end
  end.

(** The property key [user.type] turns into: a missing type reads
    [undefined].  (A type sent as [null] gives the key "null" instead; the
    two are one [None] here, so nothing below tells the keys "null" and
    "undefined" of the dashboard histogram apart.) *)
Definition type_key (user : User.t) : string :=
  match User.type user with
  | Some ty => ty
  | None => "undefined"
  end.

Record Stats : Type := mkStats {
  totalUsers : nat;
  activeUsers : nat;
  onboardedUsers : nat;
  recentLogins : nat;
  userTypes : gmap string nat;
  activePercentage : Q;
  onboardedPercentage : Q
}.

(** [stats]; the clock reads [now] all through the computation. *)
Definition stats (tz : TimeZone) (now : Z) (users : list User.t) : Stats :=
  let totalUsers := length users in
  let activeUsers := length (List.filter User.is_active users) in
  let onboardedUsers := length (List.filter User.is_onboarded users) in
  let recentLogins := length (List.filter (isRecentLogin tz now) users) in
  let userTypes := fold_left (fun acc user => bump (type_key user) acc) users ∅ in
  {| totalUsers := totalUsers;
     activeUsers := activeUsers;
     onboardedUsers := onboardedUsers;
     recentLogins := recentLogins;
     userTypes := userTypes;
     activePercentage :=
       if (0 <? totalUsers)%nat then percent activeUsers totalUsers else 0%Q;
     onboardedPercentage :=
       if (0 <? totalUsers)%nat then percent onboardedUsers totalUsers else 0%Q |}.

End Dashboard.

(** ** The trips page *)

Module Trips.
Import Js Lang.

Definition matchesSearch (U : Unicode) (trip : Trip.t) (searchTerm : string) : option bool :=
  or_else (or_else (or_else (or_else (or_else (or_else (or_else
    (ci_includes U (Trip.guide trip ≫= User.name) searchTerm)
    (ci_includes U (Trip.guide trip ≫= User.surname) searchTerm))
    (ci_includes U (Trip.driver trip ≫= User.name) searchTerm))
    (ci_includes U (Trip.driver trip ≫= User.surname) searchTerm))
    (cs_includes (Trip.guide trip ≫= User.phone) searchTerm))
    (cs_includes (Trip.driver trip ≫= User.phone) searchTerm))
    (ci_includes U (Trip.code trip) searchTerm))
    (ci_includes U (Trip.company trip ≫= Company.name) searchTerm).

Definition matchesType (trip : Trip.t) (filterType : string) : bool :=
  String.eqb filterType "all"
  || (String.eqb filterType "finished" && Trip.is_finished trip)
  || (String.eqb filterType "cancelled" && Trip.is_cancelled trip)
  || (String.eqb filterType "active"
      && negb (Trip.is_finished trip) && negb (Trip.is_cancelled trip)).

Definition filteredTrips (U : Unicode) (trips : list Trip.t) (searchTerm filterType : string)
  : list Trip.t :=
  List.filter
    (fun trip => and_then (matchesSearch U trip searchTerm) (matchesType trip filterType))
    trips.

(** [trips.map((trip) => trip.guide).filter((g) => !!g)]. *)
Definition guides (trips : list Trip.t) : list User.t := omap Trip.guide trips.

(** [guides.filter((guide, index, self) =>
       index === self.findIndex((g) => g.id === guide.id))]. *)
Definition uniqueGuides (guides : list User.t) : list User.t :=
  filter_indexed
    (fun guide index self =>
       index =? findIndex (fun g => User.id g =? User.id guide) self)
    guides.

(** [g.type || "unknown"]. *)
Definition type_or_unknown (g : User.t) : string :=
  match User.type g with
  | Some ty => if String.eqb ty "" then "unknown" else ty
  | None => "unknown"
  end.

Definition userMatchesSearch (U : Unicode) (user : User.t) (searchTerm : string) : option bool :=
  or_else (or_else (or_else (or_else
    (ci_includes U (User.name user) searchTerm)
    (ci_includes U (User.surname user) searchTerm))
    (cs_includes (User.phone user) searchTerm))
    (ci_includes U (User.plate_number user) searchTerm))
    (ci_includes U (User.car_model user) searchTerm).

Definition userMatchesType (user : User.t) (filterType : string) : bool :=
  String.eqb filterType "all" || String.eqb (type_or_unknown user) filterType.

(** The guides kept for the Users tab (the list is computed; the page
    renders no such tab). *)
Definition filteredUsers (U : Unicode) (trips : list Trip.t) (searchTerm filterType : string)
  : list User.t :=
  List.filter
    (fun user =>
       and_then (userMatchesSearch U user searchTerm) (userMatchesType user filterType))
    (uniqueGuides (guides trips)).

(** The callback of [tripStatuses]. *)
Definition countStatus (acc : gmap string nat) (trip : Trip.t) : gmap string nat :=
  if Trip.is_finished trip then bump "finished" acc
  else if Trip.is_cancelled trip then bump "cancelled" acc
  else bump "active" acc.

(** The text of the status badge of a row. *)
Definition statusLabel (trip : Trip.t) : string :=
  if Trip.is_finished trip then "Finished"
  else if Trip.is_cancelled trip then "Cancelled"
  else "Active".

(** The callback of [recentLogins]; [now] is what [new Date()] reads. *)
Definition isRecentLogin (now : Z) (g : User.t) : bool :=
  match User.last_login_at g with
  | None => false
  | Some lastLogin =>
      match lastLogin with
      | Some t =>
          let diff := (inject_Z (now - t) / inject_Z msPerDay)%Q in
          Qle_bool diff 7
      | None => false
      end
  end.

Record Stats : Type := mkStats {
  totalTrips : nat;
  finishedTrips : nat;
  cancelledTrips : nat;
  activeTrips : nat;
  totalGuides : nat;
  totalDrivers : nat;
  tripStatuses : gmap string nat;
  finishedPercentage : Q;
  cancelledPercentage : Q;
  totalUsers : nat;
  activeUsers : nat;
  onboardedUsers : nat;
  recentLogins : nat;
  userTypes : gmap string nat;
  activePercentage : Q;
  onboardedPercentage : Q
}.

(** [stats]; the clock reads [now] all through the computation.  The sum
    [totalAmount] is left out. *)
Definition stats (now : Z) (trips : list Trip.t) : Stats :=
  let totalTrips := length trips in
  let finishedTrips := length (List.filter Trip.is_finished trips) in
  let cancelledTrips := length (List.filter Trip.is_cancelled trips) in
  let activeTrips :=
    length (List.filter
              (fun t => negb (Trip.is_finished t) && negb (Trip.is_cancelled t)) trips) in
  let allGuides : gset Z := list_to_set (User.id <$> omap Trip.guide trips) in
  let allDrivers : gset Z := list_to_set (User.id <$> omap Trip.driver trips) in
  let tripStatuses := fold_left countStatus trips ∅ in
  let uniqueGuides := uniqueGuides (guides trips) in
  let totalUsers := length uniqueGuides in
  let activeUsers := length (List.filter User.is_active uniqueGuides) in
  let onboardedUsers := length (List.filter User.is_onboarded uniqueGuides) in
  let recentLogins := length (List.filter (isRecentLogin now) uniqueGuides) in
  let userTypes :=
    fold_left (fun userTypes g => bump (type_or_unknown g) userTypes) uniqueGuides ∅ in
  {| totalTrips := totalTrips;
     finishedTrips := finishedTrips;
     cancelledTrips := cancelledTrips;
     activeTrips := activeTrips;
     totalGuides := size allGuides;
     totalDrivers := size allDrivers;
     tripStatuses := tripStatuses;
     finishedPercentage :=
       if (0 <? totalTrips)%nat then percent finishedTrips totalTrips else 0%Q;
     cancelledPercentage :=
       if (0 <? totalTrips)%nat then percent cancelledTrips totalTrips else 0%Q;
     totalUsers := totalUsers;
     activeUsers := activeUsers;
     onboardedUsers := onboardedUsers;
     recentLogins := recentLogins;
     userTypes := userTypes;
     activePercentage :=
       if (0 <? totalUsers)%nat then percent activeUsers totalUsers else 0%Q;
     onboardedPercentage :=
       if (0 <? totalUsers)%nat then percent onboardedUsers totalUsers else 0%Q |}.

End Trips.

(** * Vocabulary of the properties *)

Import Js Lang HttpHelper.

(** ** De-duplication *)

(** The list [uniqueGuides] computes, built from left to right with the ids
    met so far. *)
Fixpoint unseen (seen : list Z) (l : list User.t) : list User.t :=
  match l with
  | [] => []
  | x :: r =>
      if existsb (Z.eqb (User.id x)) seen then unseen seen r
      else x :: unseen (User.id x :: seen) r
  end.

(** ** Sort order *)

(** [reward_amount ?? 0]. *)
Definition reward (u : User.t) : Z := default 0 (User.reward_amount u).

(** [a] may stand before [b]: a larger reward, or the same reward and [a]
    onboarded whenever [b] is. *)
Definition ranks_before (a b : User.t) : Prop :=
  reward b < reward a \/
  (reward a = reward b /\ (User.is_onboarded b = true -> User.is_onboarded a = true)).

(** The users whose sort key is [(r, o)]. *)
Definition has_key (r : Z) (o : bool) (u : User.t) : bool :=
  (reward u =? r) && Bool.eqb (User.is_onboarded u) o.

(** Three guides with rewards 5, 5 (onboarded) and 10. *)
Definition guide_5_no : User.t :=
  User.mk 1 (Some "Bat") None None None None (Some "guide") true false None (Some 5).

Definition guide_5_yes : User.t :=
  User.mk 2 (Some "Bold") None None None None (Some "guide") true true None (Some 5).

Definition guide_10_no : User.t :=
  User.mk 3 (Some "Saraa") None None None None (Some "guide") true false None (Some 10).

(** A trip that only names its guide. *)
Definition trip_of (g : User.t) : Trip.t :=
  Trip.mk (User.id g) None (Some g) None None false false.

(** ** Search *)

(** The field is present and contains the term, letter case ignored. *)
Definition contains_ci U (f : option string) (term : string) : bool :=
  match f with
  | Some s => includes (toLowerCase U s) (toLowerCase U term)
  | None => false
  end.

(** The field is present and contains the term as it is written. *)
Definition contains_cs (f : option string) (term : string) : bool :=
  match f with
  | Some s => includes s term
  | None => false
  end.

(** The outcome of a chain of [||] is truthy. *)
Definition holds (m : option bool) : bool :=
  match m with
  | Some true => true
  | _ => false
  end.

(** A searched field of the record contains the term: letter case ignored,
    except in the phone numbers. *)
Definition user_hit (U : Unicode) (u : User.t) (term : string) : bool :=
  contains_ci U (User.name u) term
  || contains_ci U (User.surname u) term
  || contains_cs (User.phone u) term
  || contains_ci U (User.plate_number u) term.

Definition trip_hit (U : Unicode) (t : Trip.t) (term : string) : bool :=
  contains_ci U (Trip.guide t ≫= User.name) term
  || contains_ci U (Trip.guide t ≫= User.surname) term
  || contains_ci U (Trip.driver t ≫= User.name) term
  || contains_ci U (Trip.driver t ≫= User.surname) term
  || contains_cs (Trip.guide t ≫= User.phone) term
  || contains_cs (Trip.driver t ≫= User.phone) term
  || contains_ci U (Trip.code t) term
  || contains_ci U (Trip.company t ≫= Company.name) term.

(** The match in the words of the design note: letter case ignored in every
    searched field, the phone numbers included. *)
Definition user_hit_ci (U : Unicode) (u : User.t) (term : string) : bool :=
  contains_ci U (User.name u) term
  || contains_ci U (User.surname u) term
  || contains_ci U (User.phone u) term
  || contains_ci U (User.plate_number u) term.

Definition trip_hit_ci (U : Unicode) (t : Trip.t) (term : string) : bool :=
  contains_ci U (Trip.guide t ≫= User.name) term
  || contains_ci U (Trip.guide t ≫= User.surname) term
  || contains_ci U (Trip.driver t ≫= User.name) term
  || contains_ci U (Trip.driver t ≫= User.surname) term
  || contains_ci U (Trip.guide t ≫= User.phone) term
  || contains_ci U (Trip.driver t ≫= User.phone) term
  || contains_ci U (Trip.code t) term
  || contains_ci U (Trip.company t ≫= Company.name) term.

(** One of the searched fields is there at all. *)
Definition user_searchable (u : User.t) : bool :=
  bool_decide (is_Some (User.name u))
  || bool_decide (is_Some (User.surname u))
  || bool_decide (is_Some (User.phone u))
  || bool_decide (is_Some (User.plate_number u)).

Definition trip_searchable (t : Trip.t) : bool :=
  bool_decide (is_Some (Trip.guide t ≫= User.name))
  || bool_decide (is_Some (Trip.guide t ≫= User.surname))
  || bool_decide (is_Some (Trip.driver t ≫= User.name))
  || bool_decide (is_Some (Trip.driver t ≫= User.surname))
  || bool_decide (is_Some (Trip.guide t ≫= User.phone))
  || bool_decide (is_Some (Trip.driver t ≫= User.phone))
  || bool_decide (is_Some (Trip.code t))
  || bool_decide (is_Some (Trip.company t ≫= Company.name)).

(** A driver whose phone number has capital letters in it. *)
Definition user_phone_upper : User.t :=
  User.mk 7 (Some "Bat") (Some "Dorj") (Some "9911-AB") (Some "1234") None
          (Some "driver") true true None None.

(** A driver with no name, surname, phone or plate number. *)
Definition user_blank : User.t :=
  User.mk 8 None None None None (Some "Prius") (Some "driver") true true None None.

(** ** Histograms *)

(** How many elements of [l] fall under [k]. *)
Definition tally {A : Type} (key : A -> string) (k : string) (l : list A) : nat :=
  length (List.filter (fun x => String.eqb (key x) k) l).

(** A guide whose [type] is the empty string. *)
Definition user_without_type : User.t :=
  User.mk 5 (Some "Tuya") (Some "Gan") (Some "88001122") None None (Some "")
          true true None None.

(** The key [countStatus] counts a trip under. *)
Definition bucket (t : Trip.t) : string :=
  if Trip.is_finished t then "finished"
  else if Trip.is_cancelled t then "cancelled"
  else "active".

(** ** Time *)

(** The local offset is the same now and at the local time seven calendar
    days back: no clock change falls in the week. *)
Definition steady_week (tz : TimeZone) (now : Z) : Prop :=
  offset_at_local tz (LocalTime tz now - 7 * msPerDay) = offset_at_utc tz now.

(** A zone with one fixed offset, in milliseconds. *)
Definition fixed_zone (offset : Z) : TimeZone :=
  mkTimeZone (fun _ => offset) (fun _ => offset).

(** A zone whose clocks went back one hour, from [standard + 1h] to
    [standard], at the instant [switch].  A local time that occurs twice is
    read with the offset before the change. *)
Definition fall_back_zone (standard switch : Z) : TimeZone :=
  mkTimeZone
    (fun t => if t <? switch then standard + 3600000 else standard)
    (fun t => if t <? switch + standard + 3600000 then standard + 3600000 else standard).

(** A guide whose last login parses to the instant [t]. *)
Definition login_at (t : Z) : User.t :=
  User.mk 1 (Some "Bat") None None None None (Some "guide") true true (Some (Some t)) None.

(** 2026-11-03 17:00:00 UTC, noon in New York. *)
Definition noon_new_york : Z := 1793725200000.

(** New York around the end of daylight saving time on 2026-11-01 06:00:00
    UTC: UTC-4 before, UTC-5 after. *)
Definition new_york : TimeZone := fall_back_zone (-18000000) 1793512800000.

(** Ulaanbaatar, UTC+8 all year. *)
Definition ulaanbaatar : TimeZone := fixed_zone 28800000.

(** * The rest of the pages *)

(** ** The fetch-on-mount effect of the pages ([fetchUsers], [fetchTrips]) *)

Module Fetch.

(** [httpGet] from the call of [fetch]: [None] is a [fetch] that rejects (no
    connection), which it does with a [TypeError]. *)
Definition httpGet_from (fetched : option Response) : Outcome JsVal :=
  match fetched with
  | Some res => httpGet res
  | None => Thrown TypeError
  end.

(** The texts the JavaScript engine gives its own errors. *)
Record Engine : Type := mkEngine {
  type_error_message : string;
  syntax_error_message : string
}.

(** [e.message]. *)
Definition message (engine : Engine) (e : JsError) : string :=
  match e with
  | Error m => m
  | TypeError => type_error_message engine
  | SyntaxError => syntax_error_message engine
  end.

(** The three pieces of state the effect writes: the fetched records
    ([users], [trips]), [loading] and [error]. *)
Record State : Type := mkState {
  records : JsVal;
  loading : bool;
  error : option string
}.

(** [useState([])], [useState(true)], [useState(null)]. *)
Definition initial : State := mkState (JArr []) true None.

(** The effect, run to the end:
    [setLoading(true); setError(null);
     try { setRecords((await httpGet(url)) || []) }
     catch (e) { setError(e.message || "Unknown error") }
     finally { setLoading(false) }]. *)
Definition fetchRecords (engine : Engine) (fetched : option Response) (st : State) : State :=
  let st := mkState (records st) true None in
  let st :=
    match httpGet_from fetched with
    | Returned data => mkState (js_or data (JArr [])) (loading st) (error st)
    | Thrown e =>
        let m := message engine e in
        mkState (records st) (loading st)
                (Some (if String.eqb m "" then "Unknown error" else m))
    end in
  mkState (records st) false (error st).

(** The conditions the JSX puts before its three parts; whether a part
    then renders depends on the records, which these conditions do not
    look at. *)

(** [{loading && ...}], before the spinner. *)
Definition loadingGuard (st : State) : bool := loading st.

(** [{error && ...}], before the error banner; [null] and the empty string
    are falsy. *)
Definition errorGuard (st : State) : bool :=
  match error st with
  | Some m => negb (String.eqb m "")
  | None => false
  end.

(** [{!loading && !error && ...}], before the tables and cards. *)
Definition contentGuard (st : State) : bool :=
  negb (loading st) && negb (errorGuard st).

End Fetch.

(** ** The trips page, continued *)

Module Tourist.
Record t : Type := mk {
  id : Z;
  trip_id : Z;
  country_id : Z;
  male : Z;
  female : Z
}.
End Tourist.

Module TripsPage.

(** [Array.from(new Set(l))]: the distinct values in the order in which they
    were first added. *)
Definition Array_from_Set (l : list string) : list string :=
  fold_left (fun set x => if existsb (String.eqb x) set then set else set ++ [x]) l [].

(** [userTypeOptions]. *)
Definition userTypeOptions (trips : list Trip.t) : list string :=
  Array_from_Set (map Trips.type_or_unknown (Trips.uniqueGuides (Trips.guides trips))).

(** The badge next to "Showing n of m":
    [shown.length === stats.total ? "All results" : "Filtered"]. *)
Definition resultsBadge (shown total : nat) : string :=
  if (shown =? total)%nat then "All results" else "Filtered".

(** The three sums of the tourists cell, [trip.tourists.reduce(..., 0)]. *)
Definition people (tourists : list Tourist.t) : Z :=
  fold_left (fun sum tourist => sum + Tourist.male tourist + Tourist.female tourist) tourists 0.

Definition males (tourists : list Tourist.t) : Z :=
  fold_left (fun sum tourist => sum + Tourist.male tourist) tourists 0.

Definition females (tourists : list Tourist.t) : Z :=
  fold_left (fun sum tourist => sum + Tourist.female tourist) tourists 0.

(** The tourists cell: [trip.tourists && trip.tourists.length > 0 ? sums :
    "No tourists"]; [None] is the text "No tourists", otherwise the numbers
    before "people", "M" and "F". *)
Definition touristsCell (tourists : option (list Tourist.t)) : option (Z * Z * Z) :=
  match tourists with
  | Some l =>
      if (0 <? length l)%nat then Some (people l, males l, females l) else None
  | None => None
  end.

(** The state of the details dialog: [selectedTrip] and [isModalOpen]. *)
Record Modal : Type := mkModal {
  selectedTrip : option Trip.t;
  isModalOpen : bool
}.

(** [useState(null)], [useState(false)]. *)
Definition closed : Modal := mkModal None false.

Definition handleRowClick (trip : Trip.t) (m : Modal) : Modal :=
  mkModal (Some trip) true.

Definition handleCloseModal (m : Modal) : Modal :=
  mkModal None false.

(** [onOpenChange={setIsModalOpen}]. *)
Definition onOpenChange (open : bool) (m : Modal) : Modal :=
  mkModal (selectedTrip m) open.

(** What can happen to the dialog. *)
Inductive Event : Type :=
| RowClick (trip : Trip.t)
| CloseModal
| OpenChange (open : bool).

Definition handle (m : Modal) (e : Event) : Modal :=
  match e with
  | RowClick trip => handleRowClick trip m
  | CloseModal => handleCloseModal m
  | OpenChange open => onOpenChange open m
  end.

End TripsPage.

(** ** More vocabulary *)

(** An [onOpenChange] that closes, or another event. *)
Definition dismisses (e : TripsPage.Event) : Prop :=
  match e with
  | TripsPage.OpenChange open => open = false
  | _ => True
  end.

(** The sum of the counts of a histogram. *)
Definition histogram_total (h : gmap string nat) : nat :=
  map_fold (fun _ count total => (count + total)%nat) 0%nat h.

(** A field searched by the guides' filter contains the term. *)
Definition guide_hit (U : Unicode) (u : User.t) (term : string) : bool :=
  contains_ci U (User.name u) term
  || contains_ci U (User.surname u) term
  || contains_cs (User.phone u) term
  || contains_ci U (User.plate_number u) term
  || contains_ci U (User.car_model u) term.

(** One of the fields searched by the guides' filter is there at all. *)
Definition guide_searchable (u : User.t) : bool :=
  user_searchable u || bool_decide (is_Some (User.car_model u)).

(** The trip is both finished and cancelled. *)
Definition both_flags (t : Trip.t) : bool := Trip.is_finished t && Trip.is_cancelled t.

(** The callbacks of the filters. *)
Definition dashboard_keeps (U : Unicode) (searchTerm filterType : string) (user : User.t) : bool :=
  and_then (Dashboard.matchesSearch U user searchTerm) (Dashboard.matchesType user filterType).

Definition trips_keeps (U : Unicode) (searchTerm filterType : string) (trip : Trip.t) : bool :=
  and_then (Trips.matchesSearch U trip searchTerm) (Trips.matchesType trip filterType).

Definition guides_keeps (U : Unicode) (searchTerm filterType : string) (user : User.t) : bool :=
  and_then (Trips.userMatchesSearch U user searchTerm) (Trips.userMatchesType user filterType).

(** The text fields of a record that are lowered before the match are
    ASCII text, so that the match does not depend on the case tables. *)
Definition field_ascii (f : option string) : bool :=
  match f with
  | Some s => is_ascii s
  | None => true
  end.

Definition user_ascii (u : User.t) : bool :=
  field_ascii (User.name u) && field_ascii (User.surname u)
  && field_ascii (User.plate_number u) && field_ascii (User.car_model u).

Definition trip_ascii (t : Trip.t) : bool :=
  field_ascii (Trip.guide t ≫= User.name) && field_ascii (Trip.guide t ≫= User.surname)
  && field_ascii (Trip.driver t ≫= User.name) && field_ascii (Trip.driver t ≫= User.surname)
  && field_ascii (Trip.code t) && field_ascii (Trip.company t ≫= Company.name).

(** A case conversion that knows the letters A-Z only; on ASCII text it is
    as good as any, and it computes. *)
Definition ascii_unicode : Unicode := mkUnicode lower_ascii (fun s _ => eq_refl).

(** * Properties *)


(** ** The fetch helper *)

Lemma ToString_JStr (s : string) : ToString (JStr s) = s.
Proof. reflexivity. Qed.

Lemma truthy_JStr (s : string) : truthy (JStr s) = true <-> s <> "".
Proof.
  simpl. destruct (String.eqb_spec s ""); simpl; split; intros; congruence.
Qed.

(** What [httpGet] throws on a response that is not [ok], by the shape of
    the body. *)
Lemma httpGet_error_shape (res : Response) :
  ok res = false ->
  httpGet res =
  Thrown (new_Error
            (match json res with
             | Some body =>
                 match get_prop body "message" with
                 | Some m => js_or m (JStr ("HTTP error! status: " ++ string_of_Z (status res))%string)
                 | None => JStr ("HTTP error! status: " ++ string_of_Z (status res))%string
                 end
             | None => JStr ("HTTP error! status: " ++ string_of_Z (status res))%string
             end)).
Proof. intros Hok. unfold httpGet. rewrite Hok. reflexivity. Qed.

(** C1. On every response whose status is outside 200-299, [httpGet] returns
    no value: it throws an [Error].  When the body parses and carries a
    message (a truthy [message] property; for a string: a non-empty one) the
    error's message is that message, and in every other case (no JSON body, a
    body without a usable [message]) it is "HTTP error! status: " followed
    by the status code. *)
Theorem httpGet_non_2xx_throws (res : Response) :
  ok res = false ->
  (forall v, httpGet res <> Returned v) /\
  (forall body s,
      json res = Some body -> get_prop body "message" = Some (JStr s) -> s <> "" ->
      httpGet res = Thrown (Error s)) /\
  (forall body m,
      json res = Some body -> get_prop body "message" = Some m -> truthy m = true ->
      httpGet res = Thrown (Error (ToString m))) /\
  ((forall body m,
       json res = Some body -> get_prop body "message" = Some m -> truthy m = false) ->
   httpGet res = Thrown (Error ("HTTP error! status: " ++ string_of_Z (status res))%string)).
Proof.
  intros Hok. pose proof (httpGet_error_shape res Hok) as Hshape.
  repeat split.
  - intros v Hv. rewrite Hshape in Hv. discriminate.
  - intros body s Hj Hm Hs. rewrite Hshape, Hj, Hm.
    unfold js_or. apply truthy_JStr in Hs. rewrite Hs. reflexivity.
  - intros body m Hj Hm Ht. rewrite Hshape, Hj, Hm.
    unfold js_or. rewrite Ht. reflexivity.
  - intros Hnone. rewrite Hshape.
    destruct (json res) as [body|] eqn:Hj; [|reflexivity].
    destruct (get_prop body "message") as [m|] eqn:Hm; [|reflexivity].
    unfold js_or. rewrite (Hnone body m eq_refl Hm). reflexivity.
Qed.

(** A 404 whose body is [{"message":"not found"}] fails with "not found". *)
Lemma httpGet_non_2xx_throws_witness :
  httpGet (mkResponse 404 (Some (JObj [("message", JStr "not found")])))
  = Thrown (Error "not found").
Proof.
  refine (proj1 (proj2 (httpGet_non_2xx_throws
            (mkResponse 404 (Some (JObj [("message", JStr "not found")]))) _))
            (JObj [("message", JStr "not found")]) "not found" _ _ _).
  - reflexivity.
  - reflexivity.
  - reflexivity.
  - discriminate.
Defined.

(** A 500 whose body does not parse fails with the generic text. *)
Example httpGet_500_unparseable :
  httpGet (mkResponse 500 None) = Thrown (Error "HTTP error! status: 500").
Proof. reflexivity. Qed.

(** A body that is JSON [null], or whose [message] is empty, gives the
    generic text as well. *)
Example httpGet_404_null_body :
  httpGet (mkResponse 404 (Some JNull)) = Thrown (Error "HTTP error! status: 404").
Proof. reflexivity. Qed.

Example httpGet_404_empty_message :
  httpGet (mkResponse 404 (Some (JObj [("message", JStr "")])))
  = Thrown (Error "HTTP error! status: 404").
Proof. reflexivity. Qed.

(** C2. On every response with a status in 200-299 whose body is an
    envelope, an object with a string [message] and a [data] member,
    [httpGet] returns the [data] member as it is ([null] included); the
    [message] plays no part. *)
Theorem httpGet_2xx_returns_data (res : Response) (fields : list (string * JsVal))
    (m : string) (d : JsVal) :
  ok res = true ->
  json res = Some (JObj fields) ->
  assoc "message" fields = Some (JStr m) ->
  assoc "data" fields = Some d ->
  httpGet res = Returned d.
Proof.
  intros Hok Hj _ Hd. unfold httpGet. rewrite Hok, Hj. simpl. rewrite Hd. reflexivity.
Qed.

(** HTTP 200 with [{"message":"ok","data":[{"id":1}]}] yields [[{"id":1}]]. *)
Lemma httpGet_2xx_returns_data_witness :
  httpGet (mkResponse 200
             (Some (JObj [("message", JStr "ok");
                          ("data", JArr [JObj [("id", JNum 1)]])])))
  = Returned (JArr [JObj [("id", JNum 1)]]).
Proof.
  apply (httpGet_2xx_returns_data _
           [("message", JStr "ok"); ("data", JArr [JObj [("id", JNum 1)]])] "ok");
    reflexivity.
Defined.

Example httpGet_200_null_data :
  httpGet (mkResponse 200 (Some (JObj [("message", JStr "empty"); ("data", JNull)])))
  = Returned JNull.
Proof. reflexivity. Qed.

(** ** De-duplication of the guides of a trip list *)

Lemma findIndex_from_bounds {A : Type} (p : A -> bool) (l : list A) (i : Z) :
  existsb p l = true ->
  i <= findIndex_from p i l < i + Z.of_nat (length l).
Proof.
  revert i. induction l as [|x r IH]; intros i Hex; simpl in *; [discriminate|].
  destruct (p x); [lia|].
  simpl in Hex. specialize (IH (i + 1) Hex). lia.
Qed.

Lemma findIndex_from_app {A : Type} (p : A -> bool) (pre suf : list A) (i : Z) :
  existsb p pre = false ->
  findIndex_from p i (pre ++ suf) = findIndex_from p (i + Z.of_nat (length pre)) suf.
Proof.
  revert i. induction pre as [|x r IH]; intros i Hex; simpl in *.
  - f_equal. lia.
  - apply orb_false_elim in Hex as [Hx Hr]. rewrite Hx, (IH _ Hr). f_equal. lia.
Qed.

Lemma findIndex_from_app_found {A : Type} (p : A -> bool) (pre suf : list A) (i : Z) :
  existsb p pre = true ->
  findIndex_from p i (pre ++ suf) = findIndex_from p i pre.
Proof.
  revert i. induction pre as [|x r IH]; intros i Hex; simpl in *; [discriminate|].
  destruct (p x); [reflexivity|]. simpl in Hex. apply IH, Hex.
Qed.

(** The test of [uniqueGuides] at the position right after [pre]: the
    element is kept exactly when no element of [pre] has its id. *)
Lemma first_index_test (pre suf : list User.t) (x : User.t) :
  (Z.of_nat (length pre)
   =? findIndex (fun g => User.id g =? User.id x) (pre ++ x :: suf))
  = negb (existsb (fun g => User.id g =? User.id x) pre).
Proof.
  unfold findIndex.
  destruct (existsb (fun g => User.id g =? User.id x) pre) eqn:Hex; simpl.
  - rewrite findIndex_from_app_found by exact Hex.
    pose proof (findIndex_from_bounds _ pre 0 Hex). lia.
  - rewrite findIndex_from_app by exact Hex. simpl. rewrite Z.eqb_refl. lia.
Qed.

Lemma existsb_ids (pre : list User.t) (seen : list Z) (x : User.t) :
  (forall z, In z seen <-> In z (map User.id pre)) ->
  existsb (fun g => User.id g =? User.id x) pre = existsb (Z.eqb (User.id x)) seen.
Proof.
  intros Hseen. apply eq_true_iff_eq. rewrite !existsb_exists. split.
  - intros (g & Hg & Heq). exists (User.id x). split; [|apply Z.eqb_refl].
    apply Hseen. apply Z.eqb_eq in Heq. rewrite <- Heq. apply in_map, Hg.
  - intros (z & Hz & Heq). apply Z.eqb_eq in Heq. subst z.
    apply Hseen, in_map_iff in Hz as (g & Hid & Hg).
    exists g. split; [exact Hg|]. apply Z.eqb_eq, Hid.
Qed.

Lemma filter_from_unseen (suf pre : list User.t) (seen : list Z) :
  (forall z, In z seen <-> In z (map User.id pre)) ->
  filter_from
    (fun guide index =>
       index =? findIndex (fun g => User.id g =? User.id guide) (pre ++ suf))
    (Z.of_nat (length pre)) suf
  = unseen seen suf.
Proof.
  revert pre seen. induction suf as [|x r IH]; intros pre seen Hseen; [reflexivity|].
  simpl. rewrite first_index_test, (existsb_ids pre seen x Hseen).
  assert (Hlen : Z.of_nat (length pre) + 1 = Z.of_nat (length (pre ++ [x]))).
  { rewrite length_app. simpl. lia. }
  assert (Hself : pre ++ x :: r = (pre ++ [x]) ++ r).
  { rewrite <- app_assoc. reflexivity. }
  rewrite Hlen, Hself.
  destruct (existsb (Z.eqb (User.id x)) seen) eqn:Hex; simpl.
  - apply IH. intros z. rewrite map_app, in_app_iff. simpl. rewrite <- Hseen.
    split; [tauto|]. intros [H|[H|[]]]; [exact H|]. subst z.
    apply existsb_exists in Hex as (z & Hz & Heq). apply Z.eqb_eq in Heq.
    subst z. exact Hz.
  - f_equal. apply IH. intros z. rewrite map_app, in_app_iff. simpl.
    rewrite <- Hseen. tauto.
Qed.

Lemma uniqueGuides_unseen (guides : list User.t) :
  Trips.uniqueGuides guides = unseen [] guides.
Proof.
  unfold Trips.uniqueGuides, filter_indexed.
  apply (filter_from_unseen guides [] []). intros z. simpl. tauto.
Qed.

Lemma not_seen_iff (seen : list Z) (z : Z) :
  existsb (Z.eqb z) seen = false <-> ~ In z seen.
Proof.
  rewrite <- not_true_iff_false, existsb_exists. split.
  - intros H Hin. apply H. exists z. split; [exact Hin|apply Z.eqb_refl].
  - intros H (y & Hy & Heq). apply Z.eqb_eq in Heq. subst y. exact (H Hy).
Qed.

Lemma unseen_In (l : list User.t) (seen : list Z) (g : User.t) :
  In g (unseen seen l) <->
  ~ In (User.id g) seen /\ List.find (fun x => User.id x =? User.id g) l = Some g.
Proof.
  revert seen. induction l as [|x r IH]; intros seen; simpl.
  - split; [intros []|intros [_ H]; discriminate].
  - destruct (existsb (Z.eqb (User.id x)) seen) eqn:Hex.
    + rewrite IH. apply existsb_exists in Hex as (z & Hz & Heq).
      apply Z.eqb_eq in Heq. subst z.
      destruct (Z.eqb_spec (User.id x) (User.id g)) as [Heq|Hne]; [|tauto].
      split; intros [Hns Hf]; exfalso; apply Hns; rewrite <- Heq; exact Hz.
    + apply not_seen_iff in Hex. simpl. rewrite IH. simpl.
      destruct (Z.eqb_spec (User.id x) (User.id g)) as [Heq|Hne].
      * split.
        -- intros [Hx|[Hns _]].
           ++ subst x. split; [exact Hex|reflexivity].
           ++ exfalso. apply Hns. left. exact Heq.
        -- intros [_ Hx]. left. congruence.
      * split.
        -- intros [Hx|[Hns Hf]]; [subst x; congruence|].
           split; [tauto|exact Hf].
        -- intros [Hns Hf]. right. split; [|exact Hf].
           intros [H|H]; [congruence|tauto].
Qed.

Lemma unseen_NoDup (l : list User.t) (seen : list Z) :
  List.NoDup (map User.id (unseen seen l)).
Proof.
  revert seen. induction l as [|x r IH]; intros seen; simpl; [apply List.NoDup_nil|].
  destruct (existsb (Z.eqb (User.id x)) seen); [apply IH|].
  simpl. apply List.NoDup_cons; [|apply IH].
  rewrite in_map_iff. intros (g & Hid & Hg).
  apply unseen_In in Hg as [Hns _]. apply Hns. left. symmetry. exact Hid.
Qed.

Lemma unseen_sublist (l : list User.t) (seen : list Z) : sublist (unseen seen l) l.
Proof.
  revert seen. induction l as [|x r IH]; intros seen; simpl; [constructor|].
  destruct (existsb (Z.eqb (User.id x)) seen).
  - apply sublist_cons, IH.
  - apply sublist_skip, IH.
Qed.

Lemma unseen_fixed (l : list User.t) (seen : list Z) :
  List.NoDup (map User.id l) ->
  (forall g, In g l -> ~ In (User.id g) seen) ->
  unseen seen l = l.
Proof.
  revert seen. induction l as [|x r IH]; intros seen Hnd Hdisj; simpl; [reflexivity|].
  inversion Hnd as [|? ? Hx Hr]; subst.
  assert (Hex : existsb (Z.eqb (User.id x)) seen = false).
  { apply not_seen_iff, Hdisj. left. reflexivity. }
  rewrite Hex. f_equal. apply IH; [exact Hr|].
  intros g Hg [Heq|Hin].
  - apply Hx. rewrite Heq. apply in_map, Hg.
  - apply (Hdisj g); [right; exact Hg|exact Hin].
Qed.

(** C5. [uniqueGuides] keeps, for each id, the first element of the list
    that has it: an element is in the result exactly when it is the first
    one with its id, no id occurs twice in the result, and the kept elements
    stay in their order.  The operation changes nothing on a list whose ids
    are already distinct, so applying it twice is applying it once. *)
Theorem uniqueGuides_first_wins_idempotent (guides : list User.t) :
  (forall g, In g (Trips.uniqueGuides guides) <->
             List.find (fun x => User.id x =? User.id g) guides = Some g) /\
  List.NoDup (map User.id (Trips.uniqueGuides guides)) /\
  sublist (Trips.uniqueGuides guides) guides /\
  (List.NoDup (map User.id guides) -> Trips.uniqueGuides guides = guides) /\
  Trips.uniqueGuides (Trips.uniqueGuides guides) = Trips.uniqueGuides guides.
Proof.
  assert (Hfix : forall l, List.NoDup (map User.id l) -> Trips.uniqueGuides l = l).
  { intros l Hnd. rewrite uniqueGuides_unseen. apply unseen_fixed; [exact Hnd|].
    intros g _ []. }
  repeat split.
  - rewrite uniqueGuides_unseen. intros Hg. apply unseen_In in Hg. tauto.
  - rewrite uniqueGuides_unseen. intros Hf. apply unseen_In. split; [intros []|exact Hf].
  - rewrite uniqueGuides_unseen. apply unseen_NoDup.
  - rewrite uniqueGuides_unseen. apply unseen_sublist.
  - apply Hfix.
  - apply Hfix. rewrite uniqueGuides_unseen. apply unseen_NoDup.
Qed.

(** ** Matching on ASCII text *)

Lemma filter_same {A : Type} (p q : A -> bool) (l : list A) :
  (forall x, In x l -> p x = q x) -> List.filter p l = List.filter q l.
Proof.
  induction l as [|x r IH]; simpl; intros Heq; [reflexivity|].
  rewrite (Heq x (or_introl eq_refl)), IH; [reflexivity|].
  intros y Hy. apply Heq. right. exact Hy.
Qed.

Lemma ci_includes_ascii (U : Unicode) (f : option string) (term : string) :
  field_ascii f = true -> is_ascii term = true ->
  ci_includes U f term = ci_includes ascii_unicode f term.
Proof.
  intros Hf Ht. destruct f as [s|]; [|reflexivity]. simpl in Hf. unfold ci_includes. simpl.
  rewrite (toLowerCase_ascii U s Hf), (toLowerCase_ascii U term Ht). reflexivity.
Qed.

Lemma dashboard_matchesSearch_ascii (U : Unicode) (u : User.t) (term : string) :
  user_ascii u = true -> is_ascii term = true ->
  Dashboard.matchesSearch U u term = Dashboard.matchesSearch ascii_unicode u term.
Proof.
  unfold user_ascii. rewrite !andb_true_iff. intros [[[Hn Hs] Hp] _] Ht.
  unfold Dashboard.matchesSearch. rewrite !(ci_includes_ascii U) by assumption. reflexivity.
Qed.

Lemma trips_userMatchesSearch_ascii (U : Unicode) (u : User.t) (term : string) :
  user_ascii u = true -> is_ascii term = true ->
  Trips.userMatchesSearch U u term = Trips.userMatchesSearch ascii_unicode u term.
Proof.
  unfold user_ascii. rewrite !andb_true_iff. intros [[[Hn Hs] Hp] Hc] Ht.
  unfold Trips.userMatchesSearch. rewrite !(ci_includes_ascii U) by assumption. reflexivity.
Qed.

Lemma trips_matchesSearch_ascii (U : Unicode) (t : Trip.t) (term : string) :
  trip_ascii t = true -> is_ascii term = true ->
  Trips.matchesSearch U t term = Trips.matchesSearch ascii_unicode t term.
Proof.
  unfold trip_ascii. rewrite !andb_true_iff. intros [[[[[H1 H2] H3] H4] H5] H6] Ht.
  unfold Trips.matchesSearch. rewrite !(ci_includes_ascii U) by assumption. reflexivity.
Qed.

(** On records and a term in ASCII text the lists are those the letters A-Z
    alone give. *)
Lemma dashboard_filteredUsers_ascii (U : Unicode) (users : list User.t) (term ft : string) :
  forallb user_ascii users = true -> is_ascii term = true ->
  Dashboard.filteredUsers U users term ft = Dashboard.filteredUsers ascii_unicode users term ft.
Proof.
  intros Hus Ht. unfold Dashboard.filteredUsers. f_equal. apply filter_same.
  intros u Hu. rewrite forallb_forall in Hus.
  rewrite (dashboard_matchesSearch_ascii U u term (Hus u Hu) Ht). reflexivity.
Qed.

Lemma trips_filteredTrips_ascii (U : Unicode) (trips : list Trip.t) (term ft : string) :
  forallb trip_ascii trips = true -> is_ascii term = true ->
  Trips.filteredTrips U trips term ft = Trips.filteredTrips ascii_unicode trips term ft.
Proof.
  intros Hts Ht. unfold Trips.filteredTrips. apply filter_same.
  intros t Hin. rewrite forallb_forall in Hts.
  rewrite (trips_matchesSearch_ascii U t term (Hts t Hin) Ht). reflexivity.
Qed.

Lemma trips_filteredUsers_ascii (U : Unicode) (trips : list Trip.t) (term ft : string) :
  forallb user_ascii (Trips.uniqueGuides (Trips.guides trips)) = true ->
  is_ascii term = true ->
  Trips.filteredUsers U trips term ft = Trips.filteredUsers ascii_unicode trips term ft.
Proof.
  intros Hus Ht. unfold Trips.filteredUsers. apply filter_same.
  intros u Hu. rewrite forallb_forall in Hus.
  rewrite (trips_userMatchesSearch_ascii U u term (Hus u Hu) Ht). reflexivity.
Qed.

(** ** The sort of the dashboard's user list *)

Section SortFacts.
Context {A : Type} (cmp : A -> A -> Z).

Lemma sort_insert_Permutation (a : A) (l : list A) : Permutation (sort_insert cmp a l) (a :: l).
Proof.
  induction l as [|b r IH]; simpl; [reflexivity|].
  destruct (cmp a b <=? 0); [reflexivity|].
  rewrite IH. apply perm_swap.
Qed.

Lemma sort_Permutation (l : list A) : Permutation (sort cmp l) l.
Proof.
  induction l as [|a r IH]; simpl; [reflexivity|].
  rewrite sort_insert_Permutation, IH. reflexivity.
Qed.

Lemma sort_In (l : list A) (x : A) : In x (sort cmp l) <-> In x l.
Proof.
  split; apply Permutation_in; [|symmetry]; apply sort_Permutation.
Qed.

(** Inserting [a] moves it past elements [b] with [cmp a b > 0] only; a
    class [p] that never holds both [a] and such a [b] keeps its order. *)
Lemma sort_insert_filter (p : A -> bool) (a : A) (l : list A) :
  (forall b, 0 < cmp a b -> p a = true -> p b = false) ->
  List.filter p (sort_insert cmp a l) = List.filter p (a :: l).
Proof.
  intros Hcls. induction l as [|b r IH]; simpl; [reflexivity|].
  destruct (cmp a b <=? 0) eqn:Hab; [reflexivity|].
  apply Z.leb_gt in Hab. simpl in *. rewrite IH.
  destruct (p a) eqn:Hpa; [|reflexivity].
  rewrite (Hcls b Hab eq_refl). reflexivity.
Qed.

Lemma sort_filter (p : A -> bool) (l : list A) :
  (forall a b, 0 < cmp a b -> p a = true -> p b = false) ->
  List.filter p (sort cmp l) = List.filter p l.
Proof.
  intros Hcls. induction l as [|a r IH]; simpl; [reflexivity|].
  rewrite sort_insert_filter by apply Hcls. simpl. rewrite IH. reflexivity.
Qed.

Lemma sort_insert_StronglySorted (a : A) (l : list A) :
  (forall x y z, cmp x y <= 0 -> cmp y z <= 0 -> cmp x z <= 0) ->
  (forall x y, 0 < cmp x y -> cmp y x <= 0) ->
  StronglySorted (fun x y => cmp x y <= 0) l ->
  StronglySorted (fun x y => cmp x y <= 0) (sort_insert cmp a l).
Proof.
  intros Htrans Htotal. induction 1 as [|b r Hr IH Hb]; simpl.
  - constructor; constructor.
  - destruct (cmp a b <=? 0) eqn:Hab.
    + apply Z.leb_le in Hab. constructor; [constructor; assumption|].
      constructor; [exact Hab|].
      eapply List.Forall_impl; [|exact Hb]. intros x Hx. exact (Htrans a b x Hab Hx).
    + apply Z.leb_gt in Hab. constructor; [exact IH|].
      rewrite List.Forall_forall in *. intros x Hx.
      apply (Permutation_in _ (sort_insert_Permutation a r)) in Hx as [Hx|Hx].
      * subst x. apply Htotal, Hab.
      * apply Hb, Hx.
Qed.

Lemma sort_StronglySorted (l : list A) :
  (forall x y z, cmp x y <= 0 -> cmp y z <= 0 -> cmp x z <= 0) ->
  (forall x y, 0 < cmp x y -> cmp y x <= 0) ->
  StronglySorted (fun x y => cmp x y <= 0) (sort cmp l).
Proof.
  intros Htrans Htotal. induction l as [|a r IH]; simpl; [constructor|].
  apply sort_insert_StronglySorted; assumption.
Qed.

End SortFacts.

Lemma StronglySorted_weaken {A : Type} (R R' : A -> A -> Prop) (l : list A) :
  (forall a b, R a b -> R' a b) -> StronglySorted R l -> StronglySorted R' l.
Proof.
  intros Himp. induction 1 as [|a r Hr IH Ha]; constructor; [exact IH|].
  eapply List.Forall_impl; [|exact Ha]. intros b. apply Himp.
Qed.

Lemma compare_le_iff (a b : User.t) : Dashboard.compare a b <= 0 <-> ranks_before a b.
Proof.
  unfold Dashboard.compare, ranks_before, reward.
  destruct (Z.eqb_spec (default 0 (User.reward_amount a)) (default 0 (User.reward_amount b)));
    simpl; destruct (User.is_onboarded a), (User.is_onboarded b);
    split; intros; try lia; try (right; split; [lia|congruence]); try (left; lia);
    try (destruct H as [H|[H1 H2]]; [lia|]; try lia; specialize (H2 eq_refl); discriminate).
Qed.

Lemma compare_trans (x y z : User.t) :
  Dashboard.compare x y <= 0 -> Dashboard.compare y z <= 0 -> Dashboard.compare x z <= 0.
Proof.
  rewrite !compare_le_iff. unfold ranks_before.
  intros [H1|[H1 H1']] [H2|[H2 H2']]; try (left; lia).
  right. split; [lia|]. intros H. apply H1', H2', H.
Qed.

Lemma compare_total (x y : User.t) : 0 < Dashboard.compare x y -> Dashboard.compare y x <= 0.
Proof.
  unfold Dashboard.compare.
  rewrite (Z.eqb_sym (default 0 (User.reward_amount y))).
  destruct (Z.eqb_spec (default 0 (User.reward_amount x)) (default 0 (User.reward_amount y)));
    simpl; destruct (User.is_onboarded x), (User.is_onboarded y); lia.
Qed.

Lemma compare_separates (r : Z) (o : bool) (a b : User.t) :
  0 < Dashboard.compare a b -> has_key r o a = true -> has_key r o b = false.
Proof.
  unfold Dashboard.compare, has_key, reward. intros Hab Ha.
  apply andb_true_iff in Ha as [Hr Ho]. apply Z.eqb_eq in Hr. apply eqb_prop in Ho.
  destruct (Z.eqb_spec (default 0 (User.reward_amount a)) (default 0 (User.reward_amount b)))
    as [Heq|Hne]; simpl in Hab.
  - rewrite <- Heq, Hr, Z.eqb_refl. simpl.
    destruct (User.is_onboarded a), (User.is_onboarded b), o; simpl; try reflexivity;
      try discriminate; lia.
  - apply andb_false_iff. left. apply Z.eqb_neq. congruence.
Qed.

(** C4, as amended.  The list that is sorted is the dashboard's filtered user
    list: it holds exactly the users that pass the filter, in descending
    order of [reward_amount] (a missing reward counting as 0), onboarded
    users first among equal rewards, and users with the same reward and the
    same onboarded flag in the order they had.  Rewards 5, 5 (onboarded), 10
    come out as 10, 5 (onboarded), 5. *)
Theorem dashboard_filteredUsers_sorted (U : Unicode) (users : list User.t)
    (searchTerm filterType : string) :
  let kept :=
    List.filter
      (fun user =>
         and_then (Dashboard.matchesSearch U user searchTerm)
                  (Dashboard.matchesType user filterType)) users in
  Permutation (Dashboard.filteredUsers U users searchTerm filterType) kept /\
  StronglySorted ranks_before (Dashboard.filteredUsers U users searchTerm filterType) /\
  (forall r o,
      List.filter (has_key r o) (Dashboard.filteredUsers U users searchTerm filterType)
      = List.filter (has_key r o) kept) /\
  Dashboard.filteredUsers U [guide_5_no; guide_5_yes; guide_10_no] "" "all"
  = [guide_10_no; guide_5_yes; guide_5_no].
Proof.
  intros kept. split; [|split; [|split]].
  - unfold Dashboard.filteredUsers. fold kept. apply sort_Permutation.
  - unfold Dashboard.filteredUsers. fold kept.
    eapply StronglySorted_weaken; [|apply sort_StronglySorted].
    + intros a b. apply compare_le_iff.
    + apply compare_trans.
    + apply compare_total.
  - intros r o. unfold Dashboard.filteredUsers. fold kept.
    apply sort_filter. apply compare_separates.
  - rewrite dashboard_filteredUsers_ascii by reflexivity. reflexivity.
Qed.

(** The guides list of the trips page is not sorted: on the same three
    guides it keeps the order of first occurrence. *)
Lemma trips_filteredUsers_unsorted :
  (forall U : Unicode,
      Trips.filteredUsers U
        [trip_of guide_5_no; trip_of guide_5_yes; trip_of guide_10_no] "" "all"
      = [guide_5_no; guide_5_yes; guide_10_no])
  /\ (forall U : Unicode,
         ~ StronglySorted ranks_before
             (Trips.filteredUsers U
                [trip_of guide_5_no; trip_of guide_5_yes; trip_of guide_10_no] "" "all")).
Proof.
  assert (Heq : forall U : Unicode,
             Trips.filteredUsers U
               [trip_of guide_5_no; trip_of guide_5_yes; trip_of guide_10_no] "" "all"
             = [guide_5_no; guide_5_yes; guide_10_no]).
  { intros U. rewrite trips_filteredUsers_ascii by reflexivity. reflexivity. }
  split; [exact Heq|]. intros U. rewrite Heq.
  intros H. inversion H as [|? ? _ Hall]; subst.
  inversion Hall as [|? ? _ Hrest]; subst. inversion Hrest as [|? ? Hbad _]; subst.
  unfold ranks_before, reward in Hbad. simpl in Hbad. lia.
Qed.

(** ** The search filters *)

Lemma includes_empty (s : string) : includes s "" = true.
Proof. destruct s; reflexivity. Qed.

Lemma toLowerCase_empty (U : Unicode) : toLowerCase U "" = "".
Proof. apply (toLowerCase_ascii U ""). reflexivity. Qed.

Lemma holds_or_else (a b : option bool) : holds (or_else a b) = holds a || holds b.
Proof. destruct a as [[|]|]; reflexivity. Qed.

Lemma holds_ci (U : Unicode) (f : option string) (term : string) :
  holds (ci_includes U f term) = contains_ci U f term.
Proof. destruct f as [s|]; simpl; [destruct (includes _ _)|]; reflexivity. Qed.

Lemma holds_cs (f : option string) (term : string) :
  holds (cs_includes f term) = contains_cs f term.
Proof. destruct f as [s|]; simpl; [destruct (includes _ _)|]; reflexivity. Qed.

Lemma and_then_all (m : option bool) : and_then m true = holds m.
Proof. destruct m as [[|]|]; reflexivity. Qed.

Lemma and_then_holds (m : option bool) (t : bool) : and_then m t = holds m && t.
Proof. destruct m as [[|]|]; reflexivity. Qed.

Lemma contains_ci_empty (U : Unicode) (f : option string) :
  contains_ci U f "" = bool_decide (is_Some f).
Proof.
  destruct f as [s|]; simpl; [|reflexivity]. rewrite toLowerCase_empty. apply includes_empty.
Qed.

Lemma contains_cs_empty (f : option string) : contains_cs f "" = bool_decide (is_Some f).
Proof. destruct f as [s|]; simpl; [apply includes_empty|reflexivity]. Qed.

Lemma contains_ci_ascii (U : Unicode) (f : option string) (term : string) :
  field_ascii f = true -> is_ascii term = true ->
  contains_ci U f term = contains_ci ascii_unicode f term.
Proof.
  intros Hf Ht. destruct f as [s|]; [|reflexivity]. simpl in Hf. simpl.
  rewrite (toLowerCase_ascii U s Hf), (toLowerCase_ascii U term Ht). reflexivity.
Qed.

Lemma dashboard_search_hit (U : Unicode) (u : User.t) (term : string) :
  and_then (Dashboard.matchesSearch U u term) (Dashboard.matchesType u "all")
  = user_hit U u term.
Proof.
  unfold Dashboard.matchesType. simpl. rewrite and_then_all.
  unfold Dashboard.matchesSearch, user_hit.
  rewrite !holds_or_else, !holds_ci, !holds_cs. reflexivity.
Qed.

Lemma trips_search_hit (U : Unicode) (t : Trip.t) (term : string) :
  and_then (Trips.matchesSearch U t term) (Trips.matchesType t "all") = trip_hit U t term.
Proof.
  unfold Trips.matchesType. simpl. rewrite and_then_all.
  unfold Trips.matchesSearch, trip_hit.
  rewrite !holds_or_else, !holds_ci, !holds_cs. reflexivity.
Qed.

Lemma dashboard_filteredUsers_In (U : Unicode) (users : list User.t) (term : string)
    (u : User.t) :
  In u (Dashboard.filteredUsers U users term "all")
  <-> In u users /\ user_hit U u term = true.
Proof.
  unfold Dashboard.filteredUsers. rewrite sort_In, filter_In, dashboard_search_hit.
  reflexivity.
Qed.

Lemma trips_filteredTrips_In (U : Unicode) (trips : list Trip.t) (term : string)
    (t : Trip.t) :
  In t (Trips.filteredTrips U trips term "all") <-> In t trips /\ trip_hit U t term = true.
Proof.
  unfold Trips.filteredTrips. rewrite filter_In, trips_search_hit. reflexivity.
Qed.

Lemma no_member_nil {A : Type} (l : list A) : (forall x, ~ In x l) -> l = [].
Proof. destruct l as [|a r]; [reflexivity|]. intros H. destruct (H a). left. reflexivity. Qed.

Lemma user_hit_empty (U : Unicode) (u : User.t) : user_hit U u "" = user_searchable u.
Proof.
  unfold user_hit, user_searchable. rewrite !contains_ci_empty, contains_cs_empty.
  reflexivity.
Qed.

Lemma trip_hit_empty (U : Unicode) (t : Trip.t) : trip_hit U t "" = trip_searchable t.
Proof.
  unfold trip_hit, trip_searchable. rewrite !contains_ci_empty, !contains_cs_empty.
  reflexivity.
Qed.

(** C3, as amended.  With the category filter at "all", each page keeps a
    record exactly when one of its searched fields is present and contains
    the term as a substring: name, surname and plate number (dashboard) and
    the guide's and driver's name and surname, the trip code and the company
    name (trips) after [toLowerCase] on both sides, the phone numbers with
    the case as written.  The empty term keeps every record that has at
    least one searched field, and a term that is not empty and that no
    searched field of any record contains leaves nothing.  Of a record
    without any of the searched fields under the empty term nothing is
    said. *)
Theorem search_filter_substring_match (U : Unicode) (term : string) :
  (forall users u,
      term <> "" \/ user_searchable u = true ->
      (In u (Dashboard.filteredUsers U users term "all")
       <-> In u users /\ user_hit U u term = true)) /\
  (forall trips t,
      term <> "" \/ trip_searchable t = true ->
      (In t (Trips.filteredTrips U trips term "all")
       <-> In t trips /\ trip_hit U t term = true)) /\
  (forall users u,
      In u users -> user_searchable u = true ->
      In u (Dashboard.filteredUsers U users "" "all")) /\
  (forall trips t,
      In t trips -> trip_searchable t = true ->
      In t (Trips.filteredTrips U trips "" "all")) /\
  (term <> "" ->
   forall users,
     (forall u, In u users -> user_hit U u term = false) ->
     Dashboard.filteredUsers U users term "all" = []) /\
  (term <> "" ->
   forall trips,
     (forall t, In t trips -> trip_hit U t term = false) ->
     Trips.filteredTrips U trips term "all" = []).
Proof.
  split; [intros users u _; apply dashboard_filteredUsers_In|].
  split; [intros trips t _; apply trips_filteredTrips_In|].
  split; [|split; [|split]].
  - intros users u Hin Hs. apply dashboard_filteredUsers_In.
    rewrite user_hit_empty. auto.
  - intros trips t Hin Hs. apply trips_filteredTrips_In.
    rewrite trip_hit_empty. auto.
  - intros _ users Hnone. apply no_member_nil. intros u Hu.
    apply dashboard_filteredUsers_In in Hu as [Hin Hhit].
    rewrite (Hnone u Hin) in Hhit. discriminate.
  - intros _ trips Hnone. apply no_member_nil. intros t Ht.
    apply trips_filteredTrips_In in Ht as [Hin Hhit].
    rewrite (Hnone t Hin) in Hhit. discriminate.
Qed.

(** The match is not blind to letter case on the phone number, and the
    empty term does not keep a record that has none of the searched fields. *)
Lemma search_filter_phone_case_and_blank :
  (forall U : Unicode, user_hit_ci U user_phone_upper "ab" = true)
  /\ (forall U : Unicode, Dashboard.filteredUsers U [user_phone_upper] "ab" "all" = [])
  /\ (forall U : Unicode, Dashboard.filteredUsers U [user_blank] "" "all" = []).
Proof.
  split; [|split]; intros U.
  - unfold user_hit_ci. rewrite !(contains_ci_ascii U) by reflexivity. reflexivity.
  - rewrite dashboard_filteredUsers_ascii by reflexivity. reflexivity.
  - rewrite dashboard_filteredUsers_ascii by reflexivity. reflexivity.
Qed.

(** ** Histograms *)

Section Histogram.
Context {A : Type} (key : A -> string).

Lemma bump_lookup (k k' : string) (acc : gmap string nat) :
  default 0%nat (bump k acc !! k')
  = (default 0%nat (acc !! k') + if String.eqb k k' then 1 else 0)%nat.
Proof.
  unfold bump. destruct (String.eqb_spec k k') as [->|Hne].
  - rewrite lookup_insert_eq. reflexivity.
  - rewrite lookup_insert_ne by exact Hne. symmetry. apply Nat.add_0_r.
Qed.

Lemma bump_positive (k : string) (acc : gmap string nat) :
  (forall k' v, acc !! k' = Some v -> (0 < v)%nat) ->
  forall k' v, bump k acc !! k' = Some v -> (0 < v)%nat.
Proof.
  intros Hpos k' v. unfold bump. destruct (decide (k = k')) as [->|Hne].
  - rewrite lookup_insert_eq. intros [= <-]. lia.
  - rewrite lookup_insert_ne by exact Hne. apply Hpos.
Qed.

Lemma histogram_default (l : list A) (acc : gmap string nat) (k : string) :
  default 0%nat (fold_left (fun acc x => bump (key x) acc) l acc !! k)
  = (default 0%nat (acc !! k) + tally key k l)%nat.
Proof.
  revert acc. induction l as [|x r IH]; intros acc; simpl.
  - unfold tally. simpl. lia.
  - rewrite IH, bump_lookup. unfold tally. simpl.
    destruct (String.eqb (key x) k); simpl; lia.
Qed.

Lemma histogram_positive (l : list A) (acc : gmap string nat) :
  (forall k v, acc !! k = Some v -> (0 < v)%nat) ->
  forall k v, fold_left (fun acc x => bump (key x) acc) l acc !! k = Some v -> (0 < v)%nat.
Proof.
  revert acc. induction l as [|x r IH]; intros acc Hpos; simpl; [exact Hpos|].
  apply IH, bump_positive, Hpos.
Qed.

(** The histogram has an entry for [k] exactly when some element falls
    under [k], and the entry is their number. *)
Lemma histogram_lookup (l : list A) (k : string) :
  fold_left (fun acc x => bump (key x) acc) l ∅ !! k
  = if (tally key k l =? 0)%nat then None else Some (tally key k l).
Proof.
  pose proof (histogram_default l ∅ k) as Hd. rewrite lookup_empty in Hd. simpl in Hd.
  pose proof (histogram_positive l ∅) as Hp.
  destruct (fold_left _ l ∅ !! k) as [v|] eqn:Hv; simpl in Hd.
  - assert (0 < v)%nat as Hv0.
    { apply (Hp ltac:(intros ? ? H; rewrite lookup_empty in H; discriminate) k v Hv). }
    subst v. destruct (Nat.eqb_spec (tally key k l) 0); [lia|reflexivity].
  - rewrite <- Hd. reflexivity.
Qed.

End Histogram.

(** The dashboard's histogram is keyed by the type as it comes. *)
Lemma dashboard_userTypes_lookup (tz : TimeZone) (now : Z) (users : list User.t) (k : string) :
  Dashboard.userTypes (Dashboard.stats tz now users) !! k
  = if (tally Dashboard.type_key k users =? 0)%nat then None
    else Some (tally Dashboard.type_key k users).
Proof. apply histogram_lookup. Qed.

(** The trips page's histogram maps each type to the number of distinct
    guides that have it, a missing or empty type counting as "unknown". *)
Lemma trips_userTypes_lookup (now : Z) (trips : list Trip.t) (k : string) :
  Trips.userTypes (Trips.stats now trips) !! k
  = if (tally Trips.type_or_unknown k (Trips.uniqueGuides (Trips.guides trips)) =? 0)%nat
    then None
    else Some (tally Trips.type_or_unknown k (Trips.uniqueGuides (Trips.guides trips))).
Proof. apply histogram_lookup. Qed.

Example trips_userTypes_unknown (now : Z) :
  Trips.userTypes (Trips.stats now [trip_of user_without_type]) !! "unknown" = Some 1%nat.
Proof. rewrite trips_userTypes_lookup. reflexivity. Qed.

(** C8, on the dashboard page.  A user whose [type] is the empty string is
    counted under the empty key; the histogram has no "unknown" entry. *)
Theorem dashboard_userTypes_no_unknown_bucket (tz : TimeZone) (now : Z) :
  Dashboard.userTypes (Dashboard.stats tz now [user_without_type]) !! "unknown" = None
  /\ Dashboard.userTypes (Dashboard.stats tz now [user_without_type]) !! "" = Some 1%nat.
Proof. rewrite !dashboard_userTypes_lookup. split; reflexivity. Qed.

(** ** Trip statuses *)

Lemma countStatus_bucket (acc : gmap string nat) (t : Trip.t) :
  Trips.countStatus acc t = bump (bucket t) acc.
Proof.
  unfold Trips.countStatus, bucket.
  destruct (Trip.is_finished t), (Trip.is_cancelled t); reflexivity.
Qed.

Lemma tripStatuses_fold (trips : list Trip.t) (acc : gmap string nat) :
  fold_left Trips.countStatus trips acc
  = fold_left (fun acc t => bump (bucket t) acc) trips acc.
Proof.
  revert acc. induction trips as [|t r IH]; intros acc; simpl; [reflexivity|].
  rewrite countStatus_bucket. apply IH.
Qed.

Lemma tripStatuses_lookup (now : Z) (trips : list Trip.t) (k : string) :
  Trips.tripStatuses (Trips.stats now trips) !! k
  = if (tally bucket k trips =? 0)%nat then None else Some (tally bucket k trips).
Proof. simpl. rewrite tripStatuses_fold. apply histogram_lookup. Qed.

Lemma bucket_cases (t : Trip.t) :
  bucket t = "finished" \/ bucket t = "cancelled" \/ bucket t = "active".
Proof. unfold bucket. destruct (Trip.is_finished t), (Trip.is_cancelled t); auto. Qed.

Lemma tally_buckets (trips : list Trip.t) :
  (tally bucket "finished" trips + tally bucket "cancelled" trips
   + tally bucket "active" trips)%nat = length trips.
Proof.
  unfold tally. induction trips as [|t r IH]; simpl; [reflexivity|].
  destruct (bucket_cases t) as [H|[H|H]]; rewrite H; simpl; lia.
Qed.

Lemma tally_default (k : string) (trips : list Trip.t) :
  default 0%nat (if (tally bucket k trips =? 0)%nat then None else Some (tally bucket k trips))
  = tally bucket k trips.
Proof. destruct (Nat.eqb_spec (tally bucket k trips) 0) as [->|]; reflexivity. Qed.

(** C9.  A trip that is both finished and cancelled shows the badge
    "Finished" and is counted under "finished" only.  In [tripStatuses] every
    trip is counted under exactly one of "finished", "cancelled", "active":
    the entries are the numbers of finished trips, of cancelled trips that are
    not finished, and of trips that are neither; there is no other entry,
    and the three numbers add up to the number of trips. *)
Theorem tripStatuses_finished_first (now : Z) (trips : list Trip.t) :
  let h := Trips.tripStatuses (Trips.stats now trips) in
  let count k := default 0%nat (h !! k) in
  (forall t acc,
      Trip.is_finished t = true -> Trip.is_cancelled t = true ->
      Trips.statusLabel t = "Finished" /\ Trips.countStatus acc t = bump "finished" acc) /\
  count "finished" = length (List.filter Trip.is_finished trips) /\
  count "cancelled"
  = length (List.filter (fun t => negb (Trip.is_finished t) && Trip.is_cancelled t) trips) /\
  count "active"
  = length (List.filter
              (fun t => negb (Trip.is_finished t) && negb (Trip.is_cancelled t)) trips) /\
  (forall k, is_Some (h !! k) -> k = "finished" \/ k = "cancelled" \/ k = "active") /\
  (count "finished" + count "cancelled" + count "active")%nat = length trips.
Proof.
  intros h count.
  assert (Hcount : forall k, count k = tally bucket k trips).
  { intros k. unfold count, h. rewrite tripStatuses_lookup. apply tally_default. }
  split; [|split; [|split; [|split; [|split]]]].
  - intros t acc Hf Hc. unfold Trips.statusLabel, Trips.countStatus. rewrite Hf. auto.
  - rewrite Hcount. unfold tally. f_equal. apply filter_ext. intros t. unfold bucket.
    destruct (Trip.is_finished t), (Trip.is_cancelled t); reflexivity.
  - rewrite Hcount. unfold tally. f_equal. apply filter_ext. intros t. unfold bucket.
    destruct (Trip.is_finished t), (Trip.is_cancelled t); reflexivity.
  - rewrite Hcount. unfold tally. f_equal. apply filter_ext. intros t. unfold bucket.
    destruct (Trip.is_finished t), (Trip.is_cancelled t); reflexivity.
  - intros k [v Hv]. unfold h in Hv. rewrite tripStatuses_lookup in Hv.
    destruct (Nat.eqb_spec (tally bucket k trips) 0) as [|Hne]; [discriminate|].
    unfold tally in Hne.
    destruct (List.filter (fun x => String.eqb (bucket x) k) trips) as [|t r] eqn:Hfl;
      [contradiction|].
    assert (Hin : In t (List.filter (fun x => String.eqb (bucket x) k) trips)).
    { rewrite Hfl. left. reflexivity. }
    apply filter_In in Hin as [_ Hk]. apply String.eqb_eq in Hk. subst k.
    unfold bucket. destruct (Trip.is_finished t), (Trip.is_cancelled t); auto.
  - rewrite !Hcount. apply tally_buckets.
Qed.

(** The counters [finishedTrips] and [cancelledTrips] are taken flag by
    flag, so a trip with both flags adds to both of them while the histogram
    counts it once. *)
Example both_flags_counters (now : Z) :
  Trips.finishedTrips (Trips.stats now [Trip.mk 1 None None None None true true]) = 1%nat
  /\ Trips.cancelledTrips (Trips.stats now [Trip.mk 1 None None None None true true]) = 1%nat
  /\ Trips.tripStatuses (Trips.stats now [Trip.mk 1 None None None None true true])
     !! "cancelled" = None.
Proof. repeat split. Qed.

(** ** Percentages *)

(** C6.  Each percentage of either page is 0 when its total is 0 and
    [count / total * 100] otherwise, where the total is the number of
    records (users, trips, distinct guides) and the count the number of
    those with the flag. *)
Theorem percentages_zero_or_ratio (tz : TimeZone) (now : Z)
    (users : list User.t) (trips : list Trip.t) :
  let d := Dashboard.stats tz now users in
  let s := Trips.stats now trips in
  let ratio (count total : nat) : Q :=
    (inject_Z (Z.of_nat count) / inject_Z (Z.of_nat total) * 100)%Q in
  let pct (count total : nat) : Q :=
    match total with O => 0%Q | _ => ratio count total end in
  (Dashboard.totalUsers d = length users /\
   Dashboard.activeUsers d = length (List.filter User.is_active users) /\
   Dashboard.onboardedUsers d = length (List.filter User.is_onboarded users) /\
   Dashboard.activePercentage d = pct (Dashboard.activeUsers d) (Dashboard.totalUsers d) /\
   Dashboard.onboardedPercentage d
   = pct (Dashboard.onboardedUsers d) (Dashboard.totalUsers d)) /\
  (Trips.totalTrips s = length trips /\
   Trips.finishedTrips s = length (List.filter Trip.is_finished trips) /\
   Trips.cancelledTrips s = length (List.filter Trip.is_cancelled trips) /\
   Trips.finishedPercentage s = pct (Trips.finishedTrips s) (Trips.totalTrips s) /\
   Trips.cancelledPercentage s = pct (Trips.cancelledTrips s) (Trips.totalTrips s)) /\
  (Trips.totalUsers s = length (Trips.uniqueGuides (Trips.guides trips)) /\
   Trips.activeUsers s
   = length (List.filter User.is_active (Trips.uniqueGuides (Trips.guides trips))) /\
   Trips.onboardedUsers s
   = length (List.filter User.is_onboarded (Trips.uniqueGuides (Trips.guides trips))) /\
   Trips.activePercentage s = pct (Trips.activeUsers s) (Trips.totalUsers s) /\
   Trips.onboardedPercentage s = pct (Trips.onboardedUsers s) (Trips.totalUsers s)).
Proof.
  intros d s ratio pct.
  assert (Hguard : forall (n : nat) (q : Q),
             (if (0 <? n)%nat then q else 0%Q) = match n with O => 0%Q | _ => q end).
  { intros [|n] q; reflexivity. }
  repeat split; try reflexivity; simpl; rewrite Hguard; reflexivity.
Qed.

(** A percentage lies between 0 and 100. *)
Lemma percent_range (count total : nat) :
  (count <= total)%nat -> (0 < total)%nat ->
  (0 <= percent count total /\ percent count total <= 100)%Q.
Proof.
  intros Hle Hpos. unfold percent, Qdiv, Qmult, Qinv, Qle. simpl.
  destruct (Z.of_nat total) as [|p|p] eqn:Hp; try lia. simpl. nia.
Qed.

(** ** Recent logins *)

(** The trips page counts a login whose age is at most seven times 24 hours. *)
Lemma trips_isRecentLogin_at (now t : Z) (g : User.t) :
  User.last_login_at g = Some (Some t) ->
  Trips.isRecentLogin now g = (now - t <=? 7 * msPerDay).
Proof.
  intros Hl. unfold Trips.isRecentLogin. rewrite Hl.
  apply eq_true_iff_eq. rewrite Qle_bool_iff, Z.leb_le.
  unfold Qle, Qdiv, Qmult, Qinv, msPerDay. simpl. lia.
Qed.

(** The dashboard counts a login later than the same local time of day
    seven calendar days before. *)
Lemma dashboard_isRecentLogin_at (tz : TimeZone) (now t : Z) (u : User.t) :
  User.last_login_at u = Some (Some t) ->
  Dashboard.isRecentLogin tz now u
  = (now - 7 * msPerDay
     + (offset_at_utc tz now - offset_at_local tz (LocalTime tz now - 7 * msPerDay)) <? t).
Proof.
  intros Hl. unfold Dashboard.isRecentLogin. rewrite Hl.
  unfold setDate_back, UTC. f_equal. unfold LocalTime. lia.
Qed.

Lemma isRecentLogin_absent (tz : TimeZone) (now : Z) (u : User.t) :
  User.last_login_at u = None \/ User.last_login_at u = Some None ->
  Dashboard.isRecentLogin tz now u = false /\ Trips.isRecentLogin now u = false.
Proof.
  unfold Dashboard.isRecentLogin, Trips.isRecentLogin.
  intros [-> | ->]; split; reflexivity.
Qed.

(** The trips page counts over the distinct guides of the trips. *)
Lemma trips_recentLogins_count (now : Z) (trips : list Trip.t) :
  Trips.recentLogins (Trips.stats now trips)
  = length (List.filter (Trips.isRecentLogin now) (Trips.uniqueGuides (Trips.guides trips))).
Proof. reflexivity. Qed.

Lemma filter_count_at {A : Type} (p : A -> bool) (x : A) (before after : list A) :
  length (List.filter p (before ++ x :: after))
  = ((if p x then 1 else 0) + length (List.filter p (before ++ after)))%nat.
Proof.
  rewrite !List.filter_app, !length_app. simpl. destruct (p x); simpl; lia.
Qed.

Lemma unseen_ext (l : list User.t) (seen seen' : list Z) :
  (forall z, In z seen <-> In z seen') -> unseen seen l = unseen seen' l.
Proof.
  revert seen seen'. induction l as [|x r IH]; intros seen seen' Hs; simpl; [reflexivity|].
  assert (Hex : existsb (Z.eqb (User.id x)) seen = existsb (Z.eqb (User.id x)) seen').
  { apply eq_true_iff_eq. rewrite !existsb_exists.
    split; intros (z & Hz & Heq); exists z; (split; [apply Hs, Hz|exact Heq]). }
  rewrite Hex. destruct (existsb (Z.eqb (User.id x)) seen'); [apply IH, Hs|].
  f_equal. apply IH. intros z. simpl. rewrite Hs. reflexivity.
Qed.

Lemma unseen_app (l1 l2 : list User.t) (seen : list Z) :
  unseen seen (l1 ++ l2) = unseen seen l1 ++ unseen (map User.id l1 ++ seen) l2.
Proof.
  revert seen. induction l1 as [|x r IH]; intros seen; simpl; [reflexivity|].
  destruct (existsb (Z.eqb (User.id x)) seen) eqn:Hex.
  - rewrite IH. f_equal. apply unseen_ext. intros z. simpl. rewrite !in_app_iff.
    split; [tauto|]. intros [Hz|[Hz|Hz]]; [| tauto | tauto].
    subst z. right. apply existsb_exists in Hex as (y & Hy & Heq).
    apply Z.eqb_eq in Heq. subst y. exact Hy.
  - simpl. f_equal. rewrite IH. f_equal. apply unseen_ext. intros z. simpl.
    rewrite !in_app_iff. simpl. tauto.
Qed.

Lemma unseen_other (l : list User.t) (seen : list Z) (z : Z) :
  (forall g, In g l -> User.id g <> z) -> unseen (z :: seen) l = unseen seen l.
Proof.
  revert seen. induction l as [|x r IH]; intros seen Hne; simpl; [reflexivity|].
  assert (Hx : User.id x <> z) by (apply Hne; left; reflexivity).
  apply Z.eqb_neq in Hx. rewrite Hx. simpl.
  assert (Hr : forall g, In g r -> User.id g <> z) by (intros g Hg; apply Hne; right; exact Hg).
  destruct (existsb (Z.eqb (User.id x)) seen); [apply IH, Hr|].
  f_equal. rewrite <- (IH (User.id x :: seen) Hr). apply unseen_ext.
  intros y. simpl. tauto.
Qed.

(** The distinct guides of a trip list with one more trip, whose guide has
    an id no other trip's guide has. *)
Lemma uniqueGuides_one_more (tb ta : list Trip.t) (trip : Trip.t) (u : User.t) :
  Trip.guide trip = Some u ->
  (forall g, In g (Trips.guides (tb ++ ta)) -> User.id g <> User.id u) ->
  exists before after,
    Trips.uniqueGuides (Trips.guides (tb ++ trip :: ta)) = before ++ u :: after
    /\ Trips.uniqueGuides (Trips.guides (tb ++ ta)) = before ++ after.
Proof.
  intros Hg Hfresh. unfold Trips.guides in *. rewrite !omap_app in *.
  change (omap Trip.guide (trip :: ta))
    with (match Trip.guide trip with
          | Some g => g :: omap Trip.guide ta
          | None => omap Trip.guide ta
          end).
  rewrite Hg, !uniqueGuides_unseen, !unseen_app. simpl.
  assert (Hnew : existsb (Z.eqb (User.id u)) (map User.id (omap Trip.guide tb) ++ []) = false).
  { apply not_seen_iff. rewrite app_nil_r, in_map_iff. intros (g & Hid & Hin).
    apply (Hfresh g); [|exact Hid]. apply in_app_iff. left. exact Hin. }
  rewrite Hnew.
  exists (unseen [] (omap Trip.guide tb)),
         (unseen (map User.id (omap Trip.guide tb) ++ []) (omap Trip.guide ta)).
  split; [|reflexivity]. do 2 f_equal. apply unseen_other.
  intros g Hin. apply Hfresh. apply in_app_iff. right. exact Hin.
Qed.

(** C7, as amended.  A user whose [last_login_at] is exactly 6 days before
    the evaluation time is counted, and one whose [last_login_at] is 7 days
    and 1 second before it is not: on the trips page always, on the dashboard
    in a week without a change of the local clock.  Counted means that the
    user adds one to [recentLogins]: on the trips page as one of the
    distinct guides of the trips, and so as the guide of a trip whose guide
    id no other trip has; on the dashboard as one of the users. *)
Theorem recent_login_window (tz : TimeZone) (now t : Z) (u : User.t) :
  User.last_login_at u = Some (Some t) ->
  (t = now - 6 * msPerDay ->
   (Trips.isRecentLogin now u = true /\
    (forall trips before after,
        Trips.uniqueGuides (Trips.guides trips) = before ++ u :: after ->
        Trips.recentLogins (Trips.stats now trips)
        = S (length (List.filter (Trips.isRecentLogin now) (before ++ after)))) /\
    (forall tb ta trip,
        Trip.guide trip = Some u ->
        (forall g, In g (Trips.guides (tb ++ ta)) -> User.id g <> User.id u) ->
        Trips.recentLogins (Trips.stats now (tb ++ trip :: ta))
        = S (Trips.recentLogins (Trips.stats now (tb ++ ta))))) /\
   (steady_week tz now ->
    Dashboard.isRecentLogin tz now u = true /\
    forall before after,
      Dashboard.recentLogins (Dashboard.stats tz now (before ++ u :: after))
      = S (Dashboard.recentLogins (Dashboard.stats tz now (before ++ after))))) /\
  (t = now - 7 * msPerDay - 1000 ->
   (Trips.isRecentLogin now u = false /\
    (forall trips before after,
        Trips.uniqueGuides (Trips.guides trips) = before ++ u :: after ->
        Trips.recentLogins (Trips.stats now trips)
        = length (List.filter (Trips.isRecentLogin now) (before ++ after))) /\
    (forall tb ta trip,
        Trip.guide trip = Some u ->
        (forall g, In g (Trips.guides (tb ++ ta)) -> User.id g <> User.id u) ->
        Trips.recentLogins (Trips.stats now (tb ++ trip :: ta))
        = Trips.recentLogins (Trips.stats now (tb ++ ta)))) /\
   (steady_week tz now ->
    Dashboard.isRecentLogin tz now u = false /\
    forall before after,
      Dashboard.recentLogins (Dashboard.stats tz now (before ++ u :: after))
      = Dashboard.recentLogins (Dashboard.stats tz now (before ++ after)))).
Proof.
  intros Hl.
  assert (Hcount : forall before after,
             Dashboard.recentLogins (Dashboard.stats tz now (before ++ u :: after))
             = ((if Dashboard.isRecentLogin tz now u then 1 else 0)
                + Dashboard.recentLogins (Dashboard.stats tz now (before ++ after)))%nat).
  { intros before after. apply filter_count_at. }
  assert (Hsplit : forall trips before after,
             Trips.uniqueGuides (Trips.guides trips) = before ++ u :: after ->
             Trips.recentLogins (Trips.stats now trips)
             = ((if Trips.isRecentLogin now u then 1 else 0)
                + length (List.filter (Trips.isRecentLogin now) (before ++ after)))%nat).
  { intros trips before after Hdec. rewrite trips_recentLogins_count, Hdec.
    apply filter_count_at. }
  assert (Hmore : forall tb ta trip,
             Trip.guide trip = Some u ->
             (forall g, In g (Trips.guides (tb ++ ta)) -> User.id g <> User.id u) ->
             Trips.recentLogins (Trips.stats now (tb ++ trip :: ta))
             = ((if Trips.isRecentLogin now u then 1 else 0)
                + Trips.recentLogins (Trips.stats now (tb ++ ta)))%nat).
  { intros tb ta trip Hg Hfresh.
    destruct (uniqueGuides_one_more tb ta trip u Hg Hfresh) as (before & after & H1 & H2).
    rewrite (Hsplit _ before after H1), (trips_recentLogins_count now (tb ++ ta)), H2.
    reflexivity. }
  split; intros Ht.
  - assert (Htrips : Trips.isRecentLogin now u = true).
    { rewrite (trips_isRecentLogin_at now t u Hl). apply Z.leb_le. unfold msPerDay in *. lia. }
    split.
    + split; [exact Htrips|]. split.
      * intros trips before after Hdec. rewrite (Hsplit _ _ _ Hdec), Htrips. reflexivity.
      * intros tb ta trip Hg Hfresh. rewrite (Hmore _ _ _ Hg Hfresh), Htrips. reflexivity.
    + intros Hsteady.
      assert (Hd : Dashboard.isRecentLogin tz now u = true).
      { rewrite (dashboard_isRecentLogin_at tz now t u Hl). unfold steady_week in Hsteady.
        rewrite Hsteady. apply Z.ltb_lt. unfold msPerDay in *. lia. }
      split; [exact Hd|]. intros before after. rewrite Hcount, Hd. reflexivity.
  - assert (Htrips : Trips.isRecentLogin now u = false).
    { rewrite (trips_isRecentLogin_at now t u Hl). apply Z.leb_gt. unfold msPerDay in *. lia. }
    split.
    + split; [exact Htrips|]. split.
      * intros trips before after Hdec. rewrite (Hsplit _ _ _ Hdec), Htrips. reflexivity.
      * intros tb ta trip Hg Hfresh. rewrite (Hmore _ _ _ Hg Hfresh), Htrips. reflexivity.
    + intros Hsteady.
      assert (Hd : Dashboard.isRecentLogin tz now u = false).
      { rewrite (dashboard_isRecentLogin_at tz now t u Hl). unfold steady_week in Hsteady.
        rewrite Hsteady. apply Z.ltb_ge. unfold msPerDay in *. lia. }
      split; [exact Hd|]. intros before after. rewrite Hcount, Hd. reflexivity.
Qed.

Lemma fixed_zone_steady (offset now : Z) : steady_week (fixed_zone offset) now.
Proof. reflexivity. Qed.

(** At Ulaanbaatar time a login 6 days old is counted on both pages: the
    one trip of that guide gives one recent login. *)
Lemma recent_login_window_witness :
  Trips.isRecentLogin noon_new_york (login_at (noon_new_york - 6 * msPerDay)) = true
  /\ Trips.recentLogins
       (Trips.stats noon_new_york [trip_of (login_at (noon_new_york - 6 * msPerDay))])
     = S (Trips.recentLogins (Trips.stats noon_new_york []))
  /\ Dashboard.isRecentLogin ulaanbaatar noon_new_york
       (login_at (noon_new_york - 6 * msPerDay)) = true.
Proof.
  destruct (recent_login_window ulaanbaatar noon_new_york (noon_new_york - 6 * msPerDay)
              (login_at (noon_new_york - 6 * msPerDay)) eq_refl) as [Hsix _].
  destruct (Hsix eq_refl) as [[Htrips [_ Hmore]] Hdash].
  split; [exact Htrips|]. split.
  - apply (Hmore [] [] (trip_of (login_at (noon_new_york - 6 * msPerDay))) eq_refl).
    intros g [].
  - exact (proj1 (Hdash (fixed_zone_steady 28800000 noon_new_york))).
Defined.

(** In the week in which the clocks went back, seven calendar days are
    7 x 24 + 1 hours, and the dashboard counts a login that is 7 days and
    1 second old. *)
Lemma dashboard_recent_login_after_clock_change :
  User.last_login_at (login_at (noon_new_york - 7 * msPerDay - 1000))
  = Some (Some (noon_new_york - 7 * msPerDay - 1000))
  /\ setDate_back new_york noon_new_york 7 = noon_new_york - 7 * msPerDay - 3600000
  /\ Dashboard.isRecentLogin new_york noon_new_york
       (login_at (noon_new_york - 7 * msPerDay - 1000)) = true
  /\ Dashboard.recentLogins
       (Dashboard.stats new_york noon_new_york
          [login_at (noon_new_york - 7 * msPerDay - 1000)]) = 1%nat.
Proof. repeat split. Qed.

(** Where the two predicates part, whatever the time zone. *)
Lemma recent_login_predicates_at (tz : TimeZone) (now t : Z) (u : User.t) :
  User.last_login_at u = Some (Some t) ->
  Dashboard.isRecentLogin tz now u = (setDate_back tz now 7 <? t)
  /\ Trips.isRecentLogin now u = (now - 7 * msPerDay <=? t).
Proof.
  intros Hl. split.
  - unfold Dashboard.isRecentLogin. rewrite Hl. reflexivity.
  - rewrite (trips_isRecentLogin_at now t u Hl).
    apply eq_true_iff_eq. rewrite !Z.leb_le. lia.
Qed.

(** C10, as amended.  In a week without a change of the local clock the two
    predicates give the same answer for every user and evaluation time but
    one: a login exactly 7 x 24 hours old is recent on the trips page and not
    on the dashboard. *)
Theorem recent_login_predicates_agree (tz : TimeZone) (now : Z) (u : User.t) :
  steady_week tz now ->
  (Dashboard.isRecentLogin tz now u = Trips.isRecentLogin now u
   <-> User.last_login_at u <> Some (Some (now - 7 * msPerDay))) /\
  (User.last_login_at u = Some (Some (now - 7 * msPerDay)) ->
   Dashboard.isRecentLogin tz now u = false /\ Trips.isRecentLogin now u = true).
Proof.
  intros Hsteady.
  assert (Hweek : setDate_back tz now 7 = now - 7 * msPerDay).
  { unfold setDate_back, UTC. unfold steady_week in Hsteady. rewrite Hsteady.
    unfold LocalTime. lia. }
  destruct (User.last_login_at u) as [[t|]|] eqn:Hl.
  - destruct (recent_login_predicates_at tz now t u Hl) as [Hd Ht].
    rewrite Hd, Ht, Hweek. split.
    + split.
      * intros Heq [= ->]. rewrite Z.ltb_irrefl, Z.leb_refl in Heq. discriminate.
      * intros Hne. assert (t <> now - 7 * msPerDay) by congruence.
        apply eq_true_iff_eq. rewrite Z.ltb_lt, Z.leb_le. lia.
    + intros [= ->]. rewrite Z.ltb_irrefl, Z.leb_refl. split; reflexivity.
  - destruct (isRecentLogin_absent tz now u (or_intror Hl)) as [-> ->].
    split; [split; [discriminate|reflexivity]|discriminate].
  - destruct (isRecentLogin_absent tz now u (or_introl Hl)) as [-> ->].
    split; [split; [discriminate|reflexivity]|discriminate].
Qed.

(** At Ulaanbaatar time the two pages agree on a login 6 days old. *)
Lemma recent_login_predicates_agree_witness :
  Dashboard.isRecentLogin ulaanbaatar noon_new_york (login_at (noon_new_york - 6 * msPerDay))
  = Trips.isRecentLogin noon_new_york (login_at (noon_new_york - 6 * msPerDay)).
Proof.
  apply (proj1 (recent_login_predicates_agree ulaanbaatar noon_new_york
                  (login_at (noon_new_york - 6 * msPerDay))
                  (fixed_zone_steady 28800000 noon_new_york))).
  simpl. intros H. inversion H.
Defined.

(** With the clock on UTC, a login exactly 7 x 24 hours old is recent on the
    trips page and not on the dashboard. *)
Lemma recent_login_predicates_differ :
  Dashboard.isRecentLogin (fixed_zone 0) noon_new_york
    (login_at (noon_new_york - 7 * msPerDay)) = false
  /\ Trips.isRecentLogin noon_new_york (login_at (noon_new_york - 7 * msPerDay)) = true.
Proof. split; reflexivity. Qed.

(** * Further properties *)

(** ** The fetch helper and the effect that calls it *)

Lemma httpGet_ok_shape (res : Response) :
  ok res = true ->
  httpGet res =
  match json res with
  | Some j =>
      match get_prop j "data" with
      | Some d => Returned d
      | None => Thrown TypeError
      end
  | None => Thrown SyntaxError
  end.
Proof. intros Hok. unfold httpGet. rewrite Hok. reflexivity. Qed.

(** X1.  On a status in 200-299 [httpGet] never throws an [Error] with a
    message.  It returns a value exactly when the body is JSON other than
    [null]; a body that is not JSON gives the engine's [SyntaxError], the
    body [null] a [TypeError], and a JSON body without a [data] member (an
    array, a number, an object lacking it) returns [undefined]. *)
Theorem httpGet_outcomes (res : Response) :
  ok res = true ->
  (forall m, httpGet res <> Thrown (Error m)) /\
  ((exists v, httpGet res = Returned v) <->
   exists j, json res = Some j /\ j <> JNull /\ j <> JUndefined) /\
  (httpGet res = Thrown SyntaxError <-> json res = None) /\
  (httpGet res = Thrown TypeError <->
   json res = Some JNull \/ json res = Some JUndefined) /\
  (forall j, json res = Some j -> j <> JNull -> j <> JUndefined ->
             (forall fields, j = JObj fields -> assoc "data" fields = None) ->
             httpGet res = Returned JUndefined).
Proof.
  intros Hok. rewrite (httpGet_ok_shape res Hok).
  destruct (json res) as [j|] eqn:Hj.
  - destruct (get_prop j "data") as [d|] eqn:Hd.
    + assert (Hnn : j <> JNull) by (intros ->; discriminate Hd).
      assert (Hnu : j <> JUndefined) by (intros ->; discriminate Hd).
      split; [discriminate|].
      split; [split; [intros _; exists j; auto|intros _; exists d; reflexivity]|].
      split; [split; discriminate|].
      split; [split; [discriminate|intros [H|H]; congruence]|].
      intros j' [= <-] _ _ Hf.
      destruct j as [| |b|z|s|items|fields]; simpl in Hd; try discriminate;
        injection Hd as <-; try reflexivity.
      rewrite (Hf fields eq_refl). reflexivity.
    + assert (Hcase : j = JNull \/ j = JUndefined).
      { destruct j; simpl in Hd; try discriminate; auto. }
      split; [discriminate|].
      split; [split; [intros [v H]; discriminate
                     |intros (j' & [= <-] & Hnn & Hnu); destruct Hcase; contradiction]|].
      split; [split; discriminate|].
      split; [split; [intros _; destruct Hcase; subst; auto|reflexivity]|].
      intros j' [= <-] Hnn Hnu _. destruct Hcase; contradiction.
  - split; [discriminate|].
    split; [split; [intros [v H]; discriminate|intros (j & H & _); discriminate]|].
    split; [split; reflexivity|].
    split; [split; [discriminate|intros [H|H]; discriminate]|].
    intros j H. discriminate.
Qed.

(** A 200 whose body is the empty array returns [undefined]. *)
Lemma httpGet_outcomes_witness :
  httpGet (mkResponse 200 (Some (JArr []))) = Returned JUndefined.
Proof.
  refine (proj2 (proj2 (proj2 (proj2
            (httpGet_outcomes (mkResponse 200 (Some (JArr []))) _))))
            (JArr []) _ _ _ _).
  - reflexivity.
  - reflexivity.
  - discriminate.
  - discriminate.
  - discriminate.
Defined.

Lemma fetch_error_nonempty (m : string) :
  (if String.eqb m "" then "Unknown error" else m) <> "".
Proof. destruct (String.eqb_spec m ""); [discriminate|assumption]. Qed.

(** X2.  When the effect has run, whatever the server sent and whatever
    state it started from: [loading] is false, so the spinner's condition is
    off; the condition of the error banner holds exactly when [httpGet]
    threw, and the text it would show is never empty; the condition of the
    tables and cards, [!loading && !error], holds exactly when [httpGet]
    returned.  So exactly one of the two conditions holds. *)
Theorem fetchRecords_settles (engine : Fetch.Engine) (fetched : option Response)
    (st : Fetch.State) :
  let st' := Fetch.fetchRecords engine fetched st in
  Fetch.loading st' = false /\
  Fetch.loadingGuard st' = false /\
  (Fetch.errorGuard st' = true <-> exists e, Fetch.httpGet_from fetched = Thrown e) /\
  (Fetch.contentGuard st' = true <-> exists v, Fetch.httpGet_from fetched = Returned v) /\
  Fetch.contentGuard st' = negb (Fetch.errorGuard st') /\
  (forall m, Fetch.error st' = Some m -> m <> "") /\
  (Fetch.error st' = None <-> exists v, Fetch.httpGet_from fetched = Returned v).
Proof.
  unfold Fetch.fetchRecords, Fetch.loadingGuard, Fetch.contentGuard, Fetch.errorGuard.
  destruct (Fetch.httpGet_from fetched) as [v|e]; simpl.
  - split; [reflexivity|]. split; [reflexivity|].
    split; [split; [discriminate|intros [e He]; discriminate]|].
    split; [split; [intros _; exists v; reflexivity|reflexivity]|].
    split; [reflexivity|]. split; [discriminate|].
    split; [intros _; exists v; reflexivity|reflexivity].
  - pose proof (fetch_error_nonempty (Fetch.message engine e)) as Hne.
    apply String.eqb_neq in Hne. rewrite Hne. simpl.
    split; [reflexivity|]. split; [reflexivity|].
    split; [split; [intros _; exists e; reflexivity|reflexivity]|].
    split; [split; [discriminate|intros [v Hv]; discriminate]|].
    split; [reflexivity|].
    split; [intros m [= <-]; apply String.eqb_neq, Hne|].
    split; [discriminate|intros [v Hv]; discriminate].
Qed.

(** X3.  The records the page holds after the effect: the [data] of the
    envelope when it is truthy, the empty array when it is [null], missing
    or otherwise falsy (no error is shown for that), and the records it
    held before when [httpGet] threw. *)
Theorem fetchRecords_records (engine : Fetch.Engine) (fetched : option Response)
    (st : Fetch.State) :
  let st' := Fetch.fetchRecords engine fetched st in
  (forall data, Fetch.httpGet_from fetched = Returned data -> truthy data = true ->
                Fetch.records st' = data /\ Fetch.error st' = None) /\
  (forall data, Fetch.httpGet_from fetched = Returned data -> truthy data = false ->
                Fetch.records st' = JArr [] /\ Fetch.error st' = None) /\
  (forall e, Fetch.httpGet_from fetched = Thrown e -> Fetch.records st' = Fetch.records st).
Proof.
  unfold Fetch.fetchRecords. split; [|split].
  - intros data Hd Ht. rewrite Hd. simpl. unfold js_or. rewrite Ht. split; reflexivity.
  - intros data Hd Ht. rewrite Hd. simpl. unfold js_or. rewrite Ht. split; reflexivity.
  - intros e He. rewrite He. reflexivity.
Qed.

(** A 200 whose envelope has [data: null] leaves an empty table and no
    error; no connection at all leaves the engine's text in the banner. *)
Example fetch_null_data (engine : Fetch.Engine) :
  Fetch.fetchRecords engine
    (Some (mkResponse 200 (Some (JObj [("message", JStr "ok"); ("data", JNull)]))))
    Fetch.initial
  = Fetch.mkState (JArr []) false None.
Proof. reflexivity. Qed.

Example fetch_no_connection :
  Fetch.fetchRecords (Fetch.mkEngine "Failed to fetch" "Unexpected token") None Fetch.initial
  = Fetch.mkState (JArr []) false (Some "Failed to fetch").
Proof. reflexivity. Qed.

(** A 404 whose [message] is an empty array: the [Error] has the empty
    message and the banner falls back to "Unknown error". *)
Example fetch_empty_message (engine : Fetch.Engine) :
  Fetch.error
    (Fetch.fetchRecords engine
       (Some (mkResponse 404 (Some (JObj [("message", JArr [])])))) Fetch.initial)
  = Some "Unknown error".
Proof. reflexivity. Qed.

(** ** Filters as sublists *)

Lemma filter_sublist {A : Type} (p : A -> bool) (l : list A) : sublist (List.filter p l) l.
Proof.
  induction l as [|x r IH]; simpl; [constructor|].
  destruct (p x); [apply sublist_skip|apply sublist_cons]; exact IH.
Qed.

Lemma filter_sublist_filter {A : Type} (p q : A -> bool) (l : list A) :
  (forall x, p x = true -> q x = true) ->
  sublist (List.filter p l) (List.filter q l).
Proof.
  intros Himp. induction l as [|x r IH]; simpl; [constructor|].
  destruct (p x) eqn:Hp.
  - rewrite (Himp x Hp). apply sublist_skip, IH.
  - destruct (q x); [apply sublist_cons|]; exact IH.
Qed.

Lemma filter_length_le {A : Type} (p : A -> bool) (l : list A) :
  (length (List.filter p l) <= length l)%nat.
Proof. induction l as [|x r IH]; simpl; [lia|]. destruct (p x); simpl; lia. Qed.

Lemma filter_all_iff {A : Type} (p : A -> bool) (l : list A) :
  length (List.filter p l) = length l <-> forall x, In x l -> p x = true.
Proof.
  induction l as [|x r IH]; simpl.
  - split; [intros _ x []|reflexivity].
  - pose proof (filter_length_le p r) as Hle. destruct (p x) eqn:Hp; simpl.
    + split.
      * intros Hlen y [<-|Hy]; [exact Hp|]. apply IH; [lia|exact Hy].
      * intros Hall. f_equal. apply IH. intros y Hy. apply Hall. right. exact Hy.
    + split; [lia|]. intros Hall. rewrite (Hall x (or_introl eq_refl)) in Hp. discriminate.
Qed.

Lemma trips_keeps_all (U : Unicode) (term ft : string) (t : Trip.t) :
  trips_keeps U term ft t = trip_hit U t term && Trips.matchesType t ft.
Proof.
  unfold trips_keeps. rewrite <- trips_search_hit.
  unfold Trips.matchesType at 2. simpl.
  destruct (Trips.matchesSearch U t term) as [[|]|]; reflexivity.
Qed.

(** X4.  The status filter of the trips table.  Whatever the search term,
    the rows for a status are rows of the "all" list in the same order:
    "finished" are those with [is_finished], "cancelled" those with
    [is_cancelled], "active" those with neither flag, so a trip with both
    flags is listed under "finished" and under "cancelled", though its badge
    says Finished.  Any other filter value gives no rows. *)
Theorem filteredTrips_by_status (U : Unicode) (trips : list Trip.t) (term : string) :
  let shown := Trips.filteredTrips U trips term in
  sublist (shown "all") trips /\
  (forall ft, sublist (shown ft) (shown "all")) /\
  (forall t, In t (shown "finished") <-> In t (shown "all") /\ Trip.is_finished t = true) /\
  (forall t, In t (shown "cancelled") <-> In t (shown "all") /\ Trip.is_cancelled t = true) /\
  (forall t, In t (shown "active") <->
             In t (shown "all") /\ Trip.is_finished t = false /\ Trip.is_cancelled t = false) /\
  (forall ft, ft <> "all" -> ft <> "finished" -> ft <> "cancelled" -> ft <> "active" ->
              shown ft = []).
Proof.
  intros shown. unfold shown, Trips.filteredTrips.
  change (fun trip => and_then (Trips.matchesSearch U trip term) (Trips.matchesType trip ?ft))
    with (trips_keeps U term ft).
  assert (Hin : forall ft t,
             In t (List.filter (trips_keeps U term ft) trips)
             <-> In t (List.filter (trips_keeps U term "all") trips)
                 /\ Trips.matchesType t ft = true).
  { intros ft t. rewrite !filter_In, !trips_keeps_all, !andb_true_iff.
    unfold Trips.matchesType at 2. simpl. tauto. }
  split; [apply filter_sublist|].
  split.
  { intros ft. apply filter_sublist_filter. intros t.
    rewrite !trips_keeps_all, !andb_true_iff. unfold Trips.matchesType at 2. simpl. tauto. }
  split.
  { intros t. rewrite Hin. unfold Trips.matchesType. simpl.
    destruct (Trip.is_finished t), (Trip.is_cancelled t); simpl; intuition congruence. }
  split.
  { intros t. rewrite Hin. unfold Trips.matchesType. simpl.
    destruct (Trip.is_finished t), (Trip.is_cancelled t); simpl; intuition congruence. }
  split.
  { intros t. rewrite Hin. unfold Trips.matchesType. simpl.
    destruct (Trip.is_finished t), (Trip.is_cancelled t); simpl; intuition congruence. }
  intros ft Ha Hf Hc Hact. apply no_member_nil. intros t Ht.
  apply Hin in Ht as [_ Hty]. unfold Trips.matchesType in Hty.
  apply String.eqb_neq in Ha, Hf, Hc, Hact. rewrite Ha, Hf, Hc, Hact in Hty.
  discriminate.
Qed.

(** ** Counters and percentages *)

Lemma status_counts (trips : list Trip.t) :
  (length (List.filter Trip.is_finished trips)
   + length (List.filter Trip.is_cancelled trips)
   + length (List.filter
               (fun t => negb (Trip.is_finished t) && negb (Trip.is_cancelled t)) trips))%nat
  = (length trips + length (List.filter both_flags trips))%nat.
Proof.
  induction trips as [|t r IH]; simpl; [reflexivity|].
  unfold both_flags at 1.
  destruct (Trip.is_finished t), (Trip.is_cancelled t); simpl; lia.
Qed.

(** X5.  The counters [finishedTrips], [cancelledTrips] and [activeTrips]
    add up to the number of trips plus the number of trips that are both
    finished and cancelled: they add up to [totalTrips] exactly when no
    trip has both flags. *)
Theorem trip_counters_sum (now : Z) (trips : list Trip.t) :
  let s := Trips.stats now trips in
  (Trips.finishedTrips s + Trips.cancelledTrips s + Trips.activeTrips s)%nat
  = (Trips.totalTrips s + length (List.filter both_flags trips))%nat
  /\ ((Trips.finishedTrips s + Trips.cancelledTrips s + Trips.activeTrips s)%nat
      = Trips.totalTrips s
      <-> forall t, In t trips -> both_flags t = false).
Proof.
  simpl. pose proof (status_counts trips) as Hsum. split; [exact Hsum|].
  rewrite Hsum. split.
  - intros Hlen t Ht. destruct (both_flags t) eqn:Hb; [|reflexivity].
    assert (Hin : In t (List.filter both_flags trips)) by (apply filter_In; auto).
    destruct (List.filter both_flags trips); [destruct Hin|simpl in Hlen; lia].
  - intros Hnone.
    assert (Hnil : List.filter both_flags trips = []).
    { apply no_member_nil. intros t Ht. apply filter_In in Ht as [Hin Hb].
      rewrite (Hnone t Hin) in Hb. discriminate. }
    rewrite Hnil. simpl. lia.
Qed.

Lemma guarded_percent_range (count total : nat) :
  (count <= total)%nat ->
  (0 <= (if (0 <? total)%nat then percent count total else 0)
   /\ (if (0 <? total)%nat then percent count total else 0) <= 100)%Q.
Proof.
  intros Hle. destruct (Nat.ltb_spec 0 total) as [Hpos|Hz].
  - apply percent_range; assumption.
  - split; unfold Qle; simpl; lia.
Qed.

(** X6.  Every percentage of either page lies between 0 and 100, for every
    list of records. *)
Theorem percentages_in_range (tz : TimeZone) (now : Z)
    (users : list User.t) (trips : list Trip.t) :
  let d := Dashboard.stats tz now users in
  let s := Trips.stats now trips in
  (0 <= Dashboard.activePercentage d <= 100)%Q /\
  (0 <= Dashboard.onboardedPercentage d <= 100)%Q /\
  (0 <= Trips.finishedPercentage s <= 100)%Q /\
  (0 <= Trips.cancelledPercentage s <= 100)%Q /\
  (0 <= Trips.activePercentage s <= 100)%Q /\
  (0 <= Trips.onboardedPercentage s <= 100)%Q.
Proof.
  simpl. repeat split; apply guarded_percent_range, filter_length_le.
Qed.

(** ** Guides *)

Lemma find_same {A : Type} (p q : A -> bool) (l : list A) :
  (forall x, p x = q x) -> List.find p l = List.find q l.
Proof.
  intros Hpq. induction l as [|x r IH]; simpl; [reflexivity|].
  rewrite Hpq, IH. reflexivity.
Qed.

Lemma uniqueGuides_ids (l : list User.t) (z : Z) :
  In z (map User.id (Trips.uniqueGuides l)) <-> In z (map User.id l).
Proof.
  rewrite uniqueGuides_unseen, !in_map_iff. split.
  - intros (g & Hid & Hg). apply unseen_In in Hg as [_ Hf].
    apply find_some in Hf as [Hin _]. exists g. auto.
  - intros (x & Hid & Hx).
    destruct (List.find (fun y => User.id y =? User.id x) l) as [g|] eqn:Hf.
    + pose proof (find_some _ _ Hf) as [_ Heq]. apply Z.eqb_eq in Heq.
      exists g. split; [congruence|]. apply unseen_In. split; [intros []|].
      rewrite <- Hf. apply find_same. intros y. rewrite Heq. reflexivity.
    + pose proof (find_none _ _ Hf x Hx) as Hno. simpl in Hno.
      rewrite Z.eqb_refl in Hno. discriminate.
Qed.

Lemma NoDup_map_filter {A B : Type} (f : A -> B) (p : A -> bool) (l : list A) :
  List.NoDup (map f l) -> List.NoDup (map f (List.filter p l)).
Proof.
  induction l as [|x r IH]; simpl; intros Hnd; [exact Hnd|].
  inversion Hnd as [|? ? Hx Hr]; subst. destruct (p x); simpl; [|apply IH, Hr].
  apply List.NoDup_cons; [|apply IH, Hr].
  rewrite in_map_iff. intros (y & Hy & Hin). apply filter_In in Hin as [Hin _].
  apply Hx. rewrite <- Hy. apply in_map, Hin.
Qed.

(** X7.  The number of guides counted through a [Set] of ids
    ([totalGuides]) and the number of guides left after de-duplication
    ([totalUsers]) are the same number, and it is at most the number of
    trips. *)
Theorem totalGuides_is_totalUsers (now : Z) (trips : list Trip.t) :
  Trips.totalGuides (Trips.stats now trips) = Trips.totalUsers (Trips.stats now trips)
  /\ (Trips.totalUsers (Trips.stats now trips) <= Trips.totalTrips (Trips.stats now trips))%nat.
Proof.
  simpl. unfold Trips.guides. set (l := omap Trip.guide trips). split.
  - assert (Hset : (list_to_set (User.id <$> l) : gset Z)
                   = list_to_set (User.id <$> Trips.uniqueGuides l)).
    { apply set_eq. intros z. rewrite !elem_of_list_to_set, !list_elem_of_In.
      symmetry. apply uniqueGuides_ids. }
    rewrite Hset, size_list_to_set.
    + apply length_map.
    + apply NoDup_ListNoDup. rewrite uniqueGuides_unseen. apply unseen_NoDup.
  - transitivity (length l).
    + apply sublist_length. rewrite uniqueGuides_unseen. apply unseen_sublist.
    + unfold l. clear. induction trips as [|t r IH]; [reflexivity|].
      change (omap Trip.guide (t :: r))
        with (match Trip.guide t with
              | Some g => g :: omap Trip.guide r
              | None => omap Trip.guide r
              end).
      destruct (Trip.guide t); simpl length; lia.
Qed.

(** X8.  The list [filteredUsers] the trips page computes from the guides
    of its trips (the page does not render it) never has two entries with
    the same id; its entries are guides of the trips, in the order of their
    first trip; with the type filter at "all" a guide is in it exactly when
    it is the first guide with its id and one of name, surname, plate
    number, car model (compared after [toLowerCase]) or phone (compared as
    written) contains the term. *)
Theorem trips_filteredUsers_rows (U : Unicode) (trips : list Trip.t) (term ft : string) :
  List.NoDup (map User.id (Trips.filteredUsers U trips term ft)) /\
  sublist (Trips.filteredUsers U trips term ft) (Trips.guides trips) /\
  (forall u, In u (Trips.filteredUsers U trips term "all")
             <-> List.find (fun x => User.id x =? User.id u) (Trips.guides trips) = Some u
                 /\ guide_hit U u term = true).
Proof.
  unfold Trips.filteredUsers. split; [|split].
  - apply NoDup_map_filter. rewrite uniqueGuides_unseen. apply unseen_NoDup.
  - etransitivity; [apply filter_sublist|].
    rewrite uniqueGuides_unseen. apply unseen_sublist.
  - intros u. rewrite filter_In, uniqueGuides_unseen, unseen_In.
    unfold Trips.userMatchesType. simpl. rewrite and_then_all.
    unfold Trips.userMatchesSearch, guide_hit.
    rewrite !holds_or_else, !holds_ci, !holds_cs. intuition.
Qed.

(** ** Sorting and filtering *)

Section SortFilter.
Context {A : Type} (cmp : A -> A -> Z).
Hypothesis cmp_trans : forall x y z, cmp x y <= 0 -> cmp y z <= 0 -> cmp x z <= 0.

Lemma sort_insert_skip (p : A -> bool) (a : A) (l : list A) :
  p a = false -> List.filter p (sort_insert cmp a l) = List.filter p l.
Proof.
  intros Hpa. induction l as [|b r IH]; simpl; [rewrite Hpa; reflexivity|].
  destruct (cmp a b <=? 0); simpl; [rewrite Hpa; reflexivity|].
  rewrite IH. reflexivity.
Qed.

Lemma sort_insert_first (a : A) (l : list A) :
  (forall x, In x l -> cmp a x <= 0) -> sort_insert cmp a l = a :: l.
Proof.
  destruct l as [|b r]; simpl; [reflexivity|]. intros Hall.
  assert (Hab : cmp a b <= 0) by (apply Hall; left; reflexivity).
  apply Z.leb_le in Hab. rewrite Hab. reflexivity.
Qed.

Lemma sort_insert_keep (p : A -> bool) (a : A) (l : list A) :
  StronglySorted (fun x y => cmp x y <= 0) l ->
  p a = true ->
  List.filter p (sort_insert cmp a l) = sort_insert cmp a (List.filter p l).
Proof.
  intros Hsorted Hpa. induction Hsorted as [|b r Hr IH Hb]; simpl.
  - rewrite Hpa. reflexivity.
  - destruct (cmp a b <=? 0) eqn:Hab; simpl.
    + rewrite Hpa. apply Z.leb_le in Hab. symmetry.
      apply (sort_insert_first a (if p b then b :: List.filter p r else List.filter p r)).
      intros x Hx. rewrite List.Forall_forall in Hb.
      destruct (p b); [destruct Hx as [<-|Hx]; [exact Hab|]|];
        apply filter_In in Hx as [Hx _]; exact (cmp_trans a b x Hab (Hb x Hx)).
    + destruct (p b); simpl; [rewrite Hab|]; rewrite IH; reflexivity.
Qed.

Lemma sort_filter_commute (p : A -> bool) (l : list A) :
  (forall x y, 0 < cmp x y -> cmp y x <= 0) ->
  sort cmp (List.filter p l) = List.filter p (sort cmp l).
Proof.
  intros Htotal. induction l as [|a r IH]; simpl; [reflexivity|].
  destruct (p a) eqn:Hpa; simpl.
  - rewrite IH. symmetry. apply sort_insert_keep; [|exact Hpa].
    apply sort_StronglySorted; assumption.
  - rewrite IH. symmetry. apply sort_insert_skip, Hpa.
Qed.

End SortFilter.

Lemma dashboard_filteredUsers_commute (U : Unicode) (users : list User.t) (term ft : string) :
  Dashboard.filteredUsers U users term ft
  = List.filter (dashboard_keeps U term ft) (sort Dashboard.compare users).
Proof.
  unfold Dashboard.filteredUsers.
  apply (sort_filter_commute Dashboard.compare compare_trans), compare_total.
Qed.

(** X9.  On the dashboard, filtering and sorting commute: the rows shown
    for a search term and a type are the rows of the whole user list in
    sorted order that pass the filter, in that order.  Changing the term or
    the type therefore never changes the relative order of two rows. *)
Theorem dashboard_filter_keeps_order (U : Unicode) (users : list User.t) (term ft : string) :
  Dashboard.filteredUsers U users term ft
  = List.filter (dashboard_keeps U term ft) (sort Dashboard.compare users)
  /\ sublist (Dashboard.filteredUsers U users term ft) (sort Dashboard.compare users)
  /\ (length (Dashboard.filteredUsers U users term ft) <= length users)%nat.
Proof.
  rewrite dashboard_filteredUsers_commute. split; [reflexivity|]. split.
  - apply filter_sublist.
  - etransitivity; [apply filter_length_le|].
    rewrite (Permutation_length (sort_Permutation Dashboard.compare users)). lia.
Qed.

Lemma filter_id_iff {A : Type} (p : A -> bool) (l : list A) :
  List.filter p l = l <-> forall x, In x l -> p x = true.
Proof.
  split.
  - intros Heq. apply filter_all_iff. rewrite Heq. reflexivity.
  - intros Hall. induction l as [|x r IH]; simpl; [reflexivity|].
    rewrite (Hall x (or_introl eq_refl)). f_equal. apply IH.
    intros y Hy. apply Hall. right. exact Hy.
Qed.

(** X10.  The badge beside "Showing n of m" reads "All results" exactly
    when no record is filtered out: on the trips page when the filtered
    list is the whole trip list, on the dashboard when every user passes the
    search and type tests. *)
Theorem resultsBadge_all_results (U : Unicode) (tz : TimeZone) (now : Z)
    (users : list User.t) (trips : list Trip.t) (term ft : string) :
  (TripsPage.resultsBadge (length (Trips.filteredTrips U trips term ft))
                          (Trips.totalTrips (Trips.stats now trips)) = "All results"
   <-> Trips.filteredTrips U trips term ft = trips) /\
  (TripsPage.resultsBadge (length (Dashboard.filteredUsers U users term ft))
                          (Dashboard.totalUsers (Dashboard.stats tz now users)) = "All results"
   <-> forall u, In u users -> dashboard_keeps U term ft u = true).
Proof.
  assert (Hbadge : forall n m, TripsPage.resultsBadge n m = "All results" <-> n = m).
  { intros n m. unfold TripsPage.resultsBadge.
    destruct (Nat.eqb_spec n m); split; intros; try reflexivity; try assumption;
      try discriminate; contradiction. }
  rewrite !Hbadge. simpl. split.
  - unfold Trips.filteredTrips. rewrite filter_all_iff, filter_id_iff. reflexivity.
  - unfold Dashboard.filteredUsers.
    rewrite (Permutation_length (sort_Permutation Dashboard.compare _)).
    apply filter_all_iff.
Qed.

(** ** Histograms, continued *)

Lemma histogram_total_bump (k : string) (h : gmap string nat) :
  histogram_total (bump k h) = S (histogram_total h).
Proof.
  unfold histogram_total, bump.
  assert (Hcomm : forall (z1 z2 y : nat),
             (z1 + (z2 + y) = z2 + (z1 + y))%nat) by (intros; lia).
  destruct (h !! k) as [v|] eqn:Hk; simpl.
  - rewrite <- (insert_delete_eq h k (v + 1)%nat).
    rewrite map_fold_insert_L; [|intros; apply Hcomm|apply lookup_delete_eq].
    rewrite (map_fold_delete_L _ 0%nat k v h); [lia|intros; apply Hcomm|exact Hk].
  - rewrite map_fold_insert_L; [reflexivity|intros; apply Hcomm|exact Hk].
Qed.

Lemma histogram_total_fold {A : Type} (key : A -> string) (l : list A) (h : gmap string nat) :
  histogram_total (fold_left (fun acc x => bump (key x) acc) l h)
  = (histogram_total h + length l)%nat.
Proof.
  revert h. induction l as [|x r IH]; intros h; simpl; [lia|].
  rewrite IH, histogram_total_bump. lia.
Qed.

Lemma histogram_total_empty : histogram_total ∅ = 0%nat.
Proof. apply map_fold_empty. Qed.

(** X12.  The counts of a histogram add up to the number of records it
    was built from: [userTypes] to [totalUsers] on both pages and
    [tripStatuses] to [totalTrips].  This is for records whose type is not
    the name of a member every object inherits, the case in which the
    accumulator [{}] holds nothing but counts. *)
Theorem histograms_add_up (tz : TimeZone) (now : Z)
    (users : list User.t) (trips : list Trip.t) :
  (forall u ty, In u users -> User.type u = Some ty -> inherited ty = false) ->
  (forall g ty, In g (Trips.uniqueGuides (Trips.guides trips)) ->
                User.type g = Some ty -> inherited ty = false) ->
  histogram_total (Dashboard.userTypes (Dashboard.stats tz now users))
  = Dashboard.totalUsers (Dashboard.stats tz now users) /\
  histogram_total (Trips.userTypes (Trips.stats now trips))
  = Trips.totalUsers (Trips.stats now trips) /\
  histogram_total (Trips.tripStatuses (Trips.stats now trips))
  = Trips.totalTrips (Trips.stats now trips).
Proof.
  intros _ _. simpl. rewrite tripStatuses_fold, !histogram_total_fold, histogram_total_empty.
  repeat split.
Qed.

(** Two users, one of them without the searched fields, and one trip. *)
Lemma histograms_add_up_witness :
  histogram_total
    (Dashboard.userTypes (Dashboard.stats ulaanbaatar noon_new_york [guide_5_no; user_blank]))
  = Dashboard.totalUsers (Dashboard.stats ulaanbaatar noon_new_york [guide_5_no; user_blank])
  /\ histogram_total (Trips.userTypes (Trips.stats noon_new_york [trip_of guide_5_no]))
     = Trips.totalUsers (Trips.stats noon_new_york [trip_of guide_5_no])
  /\ histogram_total (Trips.tripStatuses (Trips.stats noon_new_york [trip_of guide_5_no]))
     = Trips.totalTrips (Trips.stats noon_new_york [trip_of guide_5_no]).
Proof.
  apply (histograms_add_up ulaanbaatar noon_new_york [guide_5_no; user_blank]
           [trip_of guide_5_no]).
  - intros u ty [<-|[<-|[]]] [= <-]; reflexivity.
  - intros g ty [<-|[]] [= <-]; reflexivity.
Defined.

Lemma histogram_count {A : Type} (key : A -> string) (l : list A) (k : string) :
  default 0%nat (fold_left (fun acc x => bump (key x) acc) l ∅ !! k) = tally key k l.
Proof. rewrite histogram_default, lookup_empty. reflexivity. Qed.

Lemma dashboard_keeps_type (U : Unicode) (term k : string) (u : User.t) :
  k <> "all" ->
  dashboard_keeps U term k u
  = user_hit U u term && bool_decide (User.type u = Some k).
Proof.
  intros Hk. unfold dashboard_keeps. rewrite and_then_holds. f_equal.
  - rewrite <- dashboard_search_hit. unfold Dashboard.matchesType. simpl.
    rewrite and_then_all. reflexivity.
  - unfold Dashboard.matchesType. apply String.eqb_neq in Hk. rewrite Hk. simpl.
    destruct (User.type u) as [ty|]; [|reflexivity].
    destruct (String.eqb_spec ty k) as [->|Hne].
    + rewrite bool_decide_eq_true_2; reflexivity.
    + rewrite bool_decide_eq_false_2; [reflexivity|congruence].
Qed.

Lemma guides_keeps_type (U : Unicode) (term k : string) (u : User.t) :
  k <> "all" ->
  guides_keeps U term k u = guide_hit U u term && String.eqb (Trips.type_or_unknown u) k.
Proof.
  intros Hk. unfold guides_keeps. rewrite and_then_holds. f_equal.
  - unfold Trips.userMatchesSearch, guide_hit.
    rewrite !holds_or_else, !holds_ci, !holds_cs. reflexivity.
  - unfold Trips.userMatchesType. apply String.eqb_neq in Hk. rewrite Hk. reflexivity.
Qed.

Lemma guide_hit_empty (U : Unicode) (u : User.t) : guide_hit U u "" = guide_searchable u.
Proof.
  unfold guide_hit, guide_searchable, user_searchable.
  rewrite !contains_ci_empty, contains_cs_empty. reflexivity.
Qed.

Lemma dashboard_tally_by_type (users : list User.t) (k : string) :
  k <> "undefined" ->
  tally Dashboard.type_key k users
  = length (List.filter (fun u => bool_decide (User.type u = Some k)) users).
Proof.
  intros Hk. unfold tally. f_equal. apply filter_same. intros u _.
  unfold Dashboard.type_key. destruct (User.type u) as [ty|].
  - destruct (String.eqb_spec ty k) as [->|Hne].
    + rewrite bool_decide_eq_true_2; reflexivity.
    + rewrite bool_decide_eq_false_2; [reflexivity|congruence].
  - rewrite bool_decide_eq_false_2 by discriminate.
    apply String.eqb_neq. congruence.
Qed.

(** X13.  The type filter against the type histogram.  Let [k] be a type
    other than "all" that is not the name of a member every object
    inherits.  The records [filteredUsers] keeps under the filter [k] are
    never more than the histogram's count for [k]; with an empty search
    term they are exactly as many when every record has one of the
    searched fields (and, on the dashboard, a type).  On the dashboard [k]
    is also not "null" or "undefined", the keys under which the histogram
    counts users without a type.  On the trips page [filteredUsers] is the
    list of guides the page computes; the page does not render it. *)
Theorem type_filter_within_histogram (U : Unicode) (tz : TimeZone) (now : Z)
    (users : list User.t) (trips : list Trip.t) (term k : string) :
  k <> "all" ->
  inherited k = false ->
  (k <> "null" -> k <> "undefined" ->
   (length (Dashboard.filteredUsers U users term k)
    <= default 0 (Dashboard.userTypes (Dashboard.stats tz now users) !! k))%nat /\
   ((forall u, In u users -> user_searchable u = true /\ is_Some (User.type u)) ->
    length (Dashboard.filteredUsers U users "" k)
    = default 0%nat (Dashboard.userTypes (Dashboard.stats tz now users) !! k))) /\
  (length (Trips.filteredUsers U trips term k)
   <= default 0 (Trips.userTypes (Trips.stats now trips) !! k))%nat /\
  ((forall u, In u (Trips.uniqueGuides (Trips.guides trips)) -> guide_searchable u = true) ->
   length (Trips.filteredUsers U trips "" k)
   = default 0%nat (Trips.userTypes (Trips.stats now trips) !! k)).
Proof.
  intros Hk _.
  assert (Hdash : forall t, length (Dashboard.filteredUsers U users t k)
                            = length (List.filter (dashboard_keeps U t k) users)).
  { intros t. unfold Dashboard.filteredUsers.
    apply Permutation_length, sort_Permutation. }
  cbn [Dashboard.userTypes Dashboard.stats Trips.userTypes Trips.stats].
  rewrite !histogram_count. split; [|split].
  - intros _ Hundef. rewrite (dashboard_tally_by_type users k Hundef). split.
    + rewrite Hdash. apply sublist_length, filter_sublist_filter. intros u.
      rewrite (dashboard_keeps_type U term k u Hk), andb_true_iff. tauto.
    + intros Hall. rewrite Hdash. f_equal. apply filter_same. intros u Hu.
      destruct (Hall u Hu) as [Hs _].
      rewrite (dashboard_keeps_type U "" k u Hk), user_hit_empty, Hs. reflexivity.
  - unfold tally, Trips.filteredUsers. apply sublist_length, filter_sublist_filter. intros u.
    fold (guides_keeps U term k u).
    rewrite (guides_keeps_type U term k u Hk), andb_true_iff. tauto.
  - intros Hall. unfold tally, Trips.filteredUsers. f_equal. apply filter_same. intros u Hu.
    fold (guides_keeps U "" k u).
    rewrite (guides_keeps_type U "" k u Hk), guide_hit_empty, (Hall u Hu). reflexivity.
Qed.

(** Two guides of type "guide" out of three users, one of them matching
    the search term. *)
Lemma type_filter_within_histogram_witness :
  (length (Trips.filteredUsers ascii_unicode
             [trip_of guide_5_no; trip_of guide_5_yes] "b" "guide")
   <= default 0 (Trips.userTypes
                   (Trips.stats noon_new_york
                      [trip_of guide_5_no; trip_of guide_5_yes]) !! "guide"))%nat.
Proof.
  refine (proj1 (proj2 (type_filter_within_histogram ascii_unicode ulaanbaatar noon_new_york
                   [guide_5_no; user_blank; guide_5_yes]
                   [trip_of guide_5_no; trip_of guide_5_yes] "b" "guide" _ _))).
  - discriminate.
  - reflexivity.
Defined.

Lemma Array_from_Set_fold (l set : list string) (k : string) :
  In k (fold_left (fun set x => if existsb (String.eqb x) set then set else set ++ [x]) l set)
  <-> In k set \/ In k l.
Proof.
  revert set. induction l as [|x r IH]; intros set; simpl; [tauto|].
  rewrite IH. destruct (existsb (String.eqb x) set) eqn:Hex.
  - apply existsb_exists in Hex as (y & Hy & Heq). apply String.eqb_eq in Heq. subst y.
    split; [tauto|]. intros [H|[<-|H]]; auto.
  - rewrite in_app_iff. simpl. split; [intros [[H|[<-|[]]]|H]|intros [H|[<-|H]]]; auto.
Qed.

Lemma Array_from_Set_NoDup (l set : list string) :
  List.NoDup set ->
  List.NoDup (fold_left (fun set x => if existsb (String.eqb x) set then set else set ++ [x])
                        l set).
Proof.
  revert set. induction l as [|x r IH]; intros set Hnd; simpl; [exact Hnd|].
  apply IH. destruct (existsb (String.eqb x) set) eqn:Hex; [exact Hnd|].
  apply NoDup_ListNoDup, NoDup_app. apply NoDup_ListNoDup in Hnd.
  split; [exact Hnd|]. split; [|apply NoDup_singleton].
  intros y Hy Hx. apply list_elem_of_In in Hy. apply list_elem_of_In in Hx as [<-|[]].
  apply not_true_iff_false in Hex. apply Hex, existsb_exists.
  exists x. split; [exact Hy|apply String.eqb_refl].
Qed.

(** X14.  [userTypeOptions] of the trips page lists the types of the
    distinct guides, each once, with "unknown" for a guide without a type
    or with an empty one: no option is the empty string, and "unknown" is
    an option exactly when some guide has no type or an empty one (or is
    literally of type "unknown").  When no guide's type is the name of a
    member every object inherits, the options are exactly the keys of the
    [userTypes] histogram. *)
Theorem userTypeOptions_are_histogram_keys (now : Z) (trips : list Trip.t) :
  (forall g ty, In g (Trips.uniqueGuides (Trips.guides trips)) ->
                User.type g = Some ty -> inherited ty = false) ->
  List.NoDup (TripsPage.userTypeOptions trips) /\
  (forall k, In k (TripsPage.userTypeOptions trips)
             <-> is_Some (Trips.userTypes (Trips.stats now trips) !! k)) /\
  ~ In "" (TripsPage.userTypeOptions trips) /\
  (In "unknown" (TripsPage.userTypeOptions trips)
   <-> exists g, In g (Trips.uniqueGuides (Trips.guides trips))
                 /\ (User.type g = None \/ User.type g = Some ""
                     \/ User.type g = Some "unknown")).
Proof.
  intros _. unfold TripsPage.userTypeOptions, TripsPage.Array_from_Set.
  set (gs := Trips.uniqueGuides (Trips.guides trips)).
  assert (Hin : forall k,
             In k (fold_left
                     (fun set x => if existsb (String.eqb x) set then set else set ++ [x])
                     (map Trips.type_or_unknown gs) [])
             <-> exists g, In g gs /\ Trips.type_or_unknown g = k).
  { intros k. rewrite Array_from_Set_fold, in_map_iff. simpl.
    split; [intros [[]|(g & H1 & H2)]; eauto|intros (g & H1 & H2); right; eauto]. }
  split; [apply Array_from_Set_NoDup, List.NoDup_nil|].
  split; [|split].
  - intros k. rewrite Hin. rewrite trips_userTypes_lookup. fold gs. unfold tally.
    destruct (List.filter (fun x => String.eqb (Trips.type_or_unknown x) k) gs)
      as [|g r] eqn:Hf; simpl.
    + split; [|intros [v Hv]; discriminate]. intros (g & Hg & Hk). exfalso.
      assert (Hgin : In g (List.filter (fun x => String.eqb (Trips.type_or_unknown x) k) gs)).
      { apply filter_In. split; [exact Hg|]. apply String.eqb_eq, Hk. }
      rewrite Hf in Hgin. destruct Hgin.
    + split; [intros _; eexists; reflexivity|]. intros _.
      assert (Hgin : In g (List.filter (fun x => String.eqb (Trips.type_or_unknown x) k) gs)).
      { rewrite Hf. left. reflexivity. }
      apply filter_In in Hgin as [Hg Hk]. apply String.eqb_eq in Hk. eauto.
  - rewrite Hin. intros (g & _ & Hk). unfold Trips.type_or_unknown in Hk.
    destruct (User.type g) as [ty|]; [|discriminate].
    destruct (String.eqb_spec ty ""); [discriminate|congruence].
  - rewrite Hin. split; intros (g & Hg & Hk); exists g; (split; [exact Hg|]).
    + unfold Trips.type_or_unknown in Hk. destruct (User.type g) as [ty|]; [|auto].
      destruct (String.eqb_spec ty "") as [Heq|Hne].
      * right. left. rewrite Heq. reflexivity.
      * right. right. rewrite Hk. reflexivity.
    + unfold Trips.type_or_unknown. destruct Hk as [H|[H|H]]; rewrite H; reflexivity.
Qed.

(** The guides of two trips, both of type "guide". *)
Lemma userTypeOptions_are_histogram_keys_witness :
  TripsPage.userTypeOptions [trip_of guide_5_no; trip_of guide_5_yes] = ["guide"]
  /\ forall k, In k (TripsPage.userTypeOptions [trip_of guide_5_no; trip_of guide_5_yes])
               <-> is_Some (Trips.userTypes
                              (Trips.stats noon_new_york
                                 [trip_of guide_5_no; trip_of guide_5_yes]) !! k).
Proof.
  split; [reflexivity|].
  refine (proj1 (proj2 (userTypeOptions_are_histogram_keys noon_new_york
                          [trip_of guide_5_no; trip_of guide_5_yes] _))).
  intros g ty [<-|[<-|[]]] [= <-]; reflexivity.
Defined.

(** X15.  Each entry of a [userTypes] histogram is the number of records
    of that type and is positive; a type no record has is absent.  On the
    dashboard the records are the users and the key is their type (users
    without one are counted under "null" or "undefined", which are left
    out here); on the trips page the records are the distinct guides and
    the key is the type, or "unknown" for a guide without a type or with
    an empty one.  The key is not the name of a member every object
    inherits. *)
Theorem userTypes_entries (tz : TimeZone) (now : Z)
    (users : list User.t) (trips : list Trip.t) (k : string) (n : nat) :
  inherited k = false ->
  (k <> "null" -> k <> "undefined" ->
   (Dashboard.userTypes (Dashboard.stats tz now users) !! k = Some n
    <-> n = length (List.filter (fun u => bool_decide (User.type u = Some k)) users)
        /\ (0 < n)%nat)) /\
  (Trips.userTypes (Trips.stats now trips) !! k = Some n
   <-> n = tally Trips.type_or_unknown k (Trips.uniqueGuides (Trips.guides trips))
       /\ (0 < n)%nat).
Proof.
  intros _. rewrite dashboard_userTypes_lookup, trips_userTypes_lookup.
  split.
  - intros _ Hundef. rewrite (dashboard_tally_by_type users k Hundef).
    destruct (Nat.eqb_spec
                (length (List.filter (fun u => bool_decide (User.type u = Some k)) users)) 0)
      as [Hz|Hnz].
    + split; [discriminate|]. intros [-> H]. lia.
    + split; [intros [= <-]; split; [reflexivity|lia]|intros [-> _]; reflexivity].
  - destruct (Nat.eqb_spec
                (tally Trips.type_or_unknown k (Trips.uniqueGuides (Trips.guides trips))) 0)
      as [Hz|Hnz].
    + split; [discriminate|]. intros [-> H]. lia.
    + split; [intros [= <-]; split; [reflexivity|lia]|intros [-> _]; reflexivity].
Qed.

(** Two of three users are of type "guide". *)
Lemma userTypes_entries_witness :
  Dashboard.userTypes
    (Dashboard.stats ulaanbaatar noon_new_york [guide_5_no; user_blank; guide_5_yes])
    !! "guide" = Some 2%nat.
Proof.
  apply (proj1 (userTypes_entries ulaanbaatar noon_new_york
                  [guide_5_no; user_blank; guide_5_yes] [] "guide" 2 eq_refl));
    [discriminate|discriminate|].
  split; [reflexivity|lia].
Defined.
(** ** Recent logins, continued *)

(** X16.  On the trips page a guide counts as recently logged in exactly
    when [last_login_at] is present, parses as a date and is at most
    7 x 24 hours before the evaluation time; a missing, empty or
    unparseable value never counts and a time in the future always does. *)
Theorem trips_isRecentLogin_window (now : Z) (g : User.t) :
  (Trips.isRecentLogin now g = true
   <-> exists t, User.last_login_at g = Some (Some t) /\ now - t <= 604800000) /\
  (forall t, User.last_login_at g = Some (Some t) -> now <= t ->
             Trips.isRecentLogin now g = true).
Proof.
  assert (Hat : forall t, User.last_login_at g = Some (Some t) ->
                          (Trips.isRecentLogin now g = true <-> now - t <= 604800000)).
  { intros t Hl. rewrite (trips_isRecentLogin_at now t g Hl), Z.leb_le.
    unfold msPerDay. lia. }
  split.
  - destruct (User.last_login_at g) as [[t|]|] eqn:Hl.
    + rewrite (Hat t eq_refl). split; [intros H; exists t; auto|].
      intros (t' & [= <-] & H). exact H.
    + split; [|intros (t & H & _); discriminate].
      unfold Trips.isRecentLogin. rewrite Hl. discriminate.
    + split; [|intros (t & H & _); discriminate].
      unfold Trips.isRecentLogin. rewrite Hl. discriminate.
  - intros t Hl Hfut. apply (Hat t Hl). lia.
Qed.

(** X17.  On the dashboard, in a week without a change of the local clock,
    a user counts as recently logged in exactly when [last_login_at] is
    present, parses as a date and is less than 7 x 24 hours before the
    evaluation time. *)
Theorem dashboard_isRecentLogin_window (tz : TimeZone) (now : Z) (u : User.t) :
  steady_week tz now ->
  (Dashboard.isRecentLogin tz now u = true
   <-> exists t, User.last_login_at u = Some (Some t) /\ now - t < 604800000).
Proof.
  intros Hsteady. unfold steady_week in Hsteady.
  destruct (User.last_login_at u) as [[t|]|] eqn:Hl.
  - rewrite (dashboard_isRecentLogin_at tz now t u Hl), Hsteady, Z.ltb_lt.
    unfold msPerDay. split; [intros H; exists t; split; [reflexivity|lia]|].
    intros (t' & [= <-] & H). lia.
  - unfold Dashboard.isRecentLogin. rewrite Hl.
    split; [discriminate|intros (t & H & _); discriminate].
  - unfold Dashboard.isRecentLogin. rewrite Hl.
    split; [discriminate|intros (t & H & _); discriminate].
Qed.

(** At Ulaanbaatar time a login one hour short of seven days old counts. *)
Lemma dashboard_isRecentLogin_window_witness :
  Dashboard.isRecentLogin ulaanbaatar noon_new_york
    (login_at (noon_new_york - 601200000)) = true.
Proof.
  apply (proj2 (dashboard_isRecentLogin_window ulaanbaatar noon_new_york
                  (login_at (noon_new_york - 601200000))
                  (fixed_zone_steady 28800000 noon_new_york))).
  exists (noon_new_york - 601200000). split; [reflexivity|]. unfold noon_new_york. lia.
Defined.

(** ** Tourists *)

Lemma tourist_sums (l : list Tourist.t) (a b : Z) :
  fold_left (fun sum tourist => sum + Tourist.male tourist + Tourist.female tourist) l (a + b)
  = fold_left (fun sum tourist => sum + Tourist.male tourist) l a
    + fold_left (fun sum tourist => sum + Tourist.female tourist) l b.
Proof.
  revert a b. induction l as [|x r IH]; intros a b; simpl; [reflexivity|].
  replace (a + b + Tourist.male x + Tourist.female x)
    with ((a + Tourist.male x) + (b + Tourist.female x)) by lia.
  apply IH.
Qed.

(** X18.  In the tourists cell the number of people is the number of males
    plus the number of females, whatever the groups; the cell reads
    "No tourists" exactly when the trip has no tourist list or an empty one. *)
Theorem touristsCell_totals (tourists : option (list Tourist.t)) :
  (forall l, TripsPage.people l = TripsPage.males l + TripsPage.females l) /\
  (TripsPage.touristsCell tourists = None <-> tourists = None \/ tourists = Some []) /\
  (forall p m f, TripsPage.touristsCell tourists = Some (p, m, f) ->
                 p = m + f
                 /\ exists l, tourists = Some l /\ l <> []
                              /\ m = TripsPage.males l /\ f = TripsPage.females l).
Proof.
  assert (Hsum : forall l, TripsPage.people l = TripsPage.males l + TripsPage.females l).
  { intros l. apply (tourist_sums l 0 0). }
  split; [exact Hsum|]. unfold TripsPage.touristsCell.
  destruct tourists as [[|x r]|]; simpl.
  - split; [split; auto|discriminate].
  - split; [split; [discriminate|intros [H|H]; discriminate]|].
    intros p m f [= <- <- <-]. split; [apply Hsum|].
    exists (x :: r). repeat split. discriminate.
  - split; [split; auto|discriminate].
Qed.

(** ** The details dialog *)

Lemma modal_invariant (Q : Trip.t -> Prop) (es : list TripsPage.Event) (m : TripsPage.Modal) :
  List.Forall dismisses es ->
  (forall trip, In (TripsPage.RowClick trip) es -> Q trip) ->
  (TripsPage.isModalOpen m = true ->
   exists trip, TripsPage.selectedTrip m = Some trip /\ Q trip) ->
  TripsPage.isModalOpen (fold_left TripsPage.handle es m) = true ->
  exists trip, TripsPage.selectedTrip (fold_left TripsPage.handle es m) = Some trip /\ Q trip.
Proof.
  revert m. induction es as [|e r IH]; intros m Hd HQ Hm; simpl; [exact Hm|].
  inversion Hd as [|? ? He Hr]; subst.
  apply IH; [exact Hr|intros trip Hin; apply HQ; right; exact Hin|].
  destruct e as [trip| |open]; simpl.
  - intros _. exists trip. split; [reflexivity|]. apply HQ. left. reflexivity.
  - discriminate.
  - simpl in He. subst open. discriminate.
Qed.

(** X19.  As long as [onOpenChange] is only used to dismiss the dialog,
    whenever the dialog is open a trip is selected, and it is a trip whose
    row was clicked.  A click on a row always opens the dialog on that
    trip. *)
Theorem modal_open_shows_clicked_trip (es : list TripsPage.Event) :
  List.Forall dismisses es ->
  (TripsPage.isModalOpen (fold_left TripsPage.handle es TripsPage.closed) = true ->
   exists trip,
     TripsPage.selectedTrip (fold_left TripsPage.handle es TripsPage.closed) = Some trip
     /\ In (TripsPage.RowClick trip) es) /\
  (forall trip,
      fold_left TripsPage.handle (es ++ [TripsPage.RowClick trip]) TripsPage.closed
      = TripsPage.mkModal (Some trip) true).
Proof.
  intros Hd. split.
  - apply (modal_invariant (fun trip => In (TripsPage.RowClick trip) es) es TripsPage.closed Hd).
    + auto.
    + discriminate.
  - intros trip. rewrite fold_left_app. reflexivity.
Qed.

(** A click, a dismissal and another click leave the dialog open on the
    second trip. *)
Lemma modal_open_shows_clicked_trip_witness :
  exists trip,
    TripsPage.selectedTrip
      (fold_left TripsPage.handle
         [TripsPage.RowClick (trip_of guide_5_no); TripsPage.OpenChange false;
          TripsPage.RowClick (trip_of guide_10_no)] TripsPage.closed) = Some trip
    /\ In (TripsPage.RowClick trip)
          [TripsPage.RowClick (trip_of guide_5_no); TripsPage.OpenChange false;
           TripsPage.RowClick (trip_of guide_10_no)].
Proof.
  refine (proj1 (modal_open_shows_clicked_trip
                   [TripsPage.RowClick (trip_of guide_5_no); TripsPage.OpenChange false;
                    TripsPage.RowClick (trip_of guide_10_no)] _) _).
  - repeat constructor.
  - reflexivity.
Defined.

(** A dismissal through [onOpenChange] closes the dialog and leaves the
    trip selected; an [onOpenChange(true)] before any click would open it
    on nothing. *)
Example modal_dismissed_keeps_trip :
  fold_left TripsPage.handle
    [TripsPage.RowClick (trip_of guide_5_no); TripsPage.OpenChange false] TripsPage.closed
  = TripsPage.mkModal (Some (trip_of guide_5_no)) false
  /\ fold_left TripsPage.handle [TripsPage.OpenChange true] TripsPage.closed
     = TripsPage.mkModal None true.
Proof. split; reflexivity. Qed.

(** ** The order the server sends the users in *)

Lemma sorted_permutation_unique {A : Type} (R : A -> A -> Prop) (l1 l2 : list A) :
  StronglySorted R l1 -> StronglySorted R l2 -> Permutation l1 l2 ->
  (forall x y, In x l1 -> In y l1 -> R x y -> R y x -> x = y) ->
  l1 = l2.
Proof.
  intros Hs1. revert l2. induction Hs1 as [|a r1 Hr1 IH Ha]; intros l2 Hs2 Hperm Hanti.
  - apply Permutation_nil in Hperm. congruence.
  - destruct l2 as [|b r2].
    + symmetry in Hperm. apply Permutation_nil in Hperm. discriminate.
    + inversion Hs2 as [|? ? Hr2 Hb]; subst.
      rewrite List.Forall_forall in Ha, Hb.
      assert (Hab : a = b).
      { assert (Hina : In a (b :: r2)) by (apply (Permutation_in _ Hperm); left; reflexivity).
        assert (Hinb : In b (a :: r1)).
        { apply (Permutation_in _ (Permutation_sym Hperm)). left. reflexivity. }
        destruct Hina as [Heq|Hina]; [congruence|].
        destruct Hinb as [Heq|Hinb]; [congruence|].
        apply Hanti; [left; reflexivity|right; exact Hinb|apply Ha, Hinb|apply Hb, Hina]. }
      subst b. f_equal. apply IH; [exact Hr2|exact (Permutation_cons_inv Hperm)|].
      intros x y Hx Hy. apply Hanti; right; assumption.
Qed.

Lemma ranks_before_same_key (a b : User.t) :
  ranks_before a b -> ranks_before b a ->
  reward a = reward b /\ User.is_onboarded a = User.is_onboarded b.
Proof.
  unfold ranks_before. intros [H1|[H1 H1']] [H2|[H2 H2']]; try lia.
  split; [exact H1|].
  destruct (User.is_onboarded a), (User.is_onboarded b); try reflexivity.
  - specialize (H2' eq_refl). discriminate.
  - specialize (H1' eq_refl). discriminate.
Qed.

(** X20.  When no two users of the list share both reward and onboarded
    flag, the dashboard table does not depend on the order in which the
    server sent the users: two lists with the same users give the same
    rows in the same order, under any search term and type filter. *)
Theorem dashboard_order_independent (U : Unicode) (users users' : list User.t) (term ft : string) :
  Permutation users users' ->
  (forall a b, In a users -> In b users ->
               reward a = reward b -> User.is_onboarded a = User.is_onboarded b -> a = b) ->
  Dashboard.filteredUsers U users term ft = Dashboard.filteredUsers U users' term ft.
Proof.
  intros Hperm Hkeys. rewrite !dashboard_filteredUsers_commute. f_equal.
  apply (sorted_permutation_unique (fun x y => Dashboard.compare x y <= 0)).
  - apply sort_StronglySorted; [apply compare_trans|apply compare_total].
  - apply sort_StronglySorted; [apply compare_trans|apply compare_total].
  - rewrite (sort_Permutation Dashboard.compare users).
    rewrite (sort_Permutation Dashboard.compare users'). exact Hperm.
  - intros x y Hx Hy Hxy Hyx. apply sort_In in Hx, Hy.
    apply compare_le_iff in Hxy, Hyx.
    destruct (ranks_before_same_key x y Hxy Hyx) as [Hr Ho].
    apply Hkeys; assumption.
Qed.

(** The three guides sent in the opposite order give the same table. *)
Lemma dashboard_order_independent_witness :
  Dashboard.filteredUsers ascii_unicode [guide_5_no; guide_5_yes; guide_10_no] "" "all"
  = Dashboard.filteredUsers ascii_unicode [guide_10_no; guide_5_yes; guide_5_no] "" "all".
Proof.
  apply dashboard_order_independent.
  - apply Permutation_rev.
  - intros a b [<-|[<-|[<-|[]]]] [<-|[<-|[<-|[]]]] Hr Ho;
      try reflexivity; try discriminate Hr; discriminate Ho.
Defined.
